(** * Web_Calculator: the Calculator engine of [app.ts] / [app.js]

    A shallow embedding of the [Calculator] class: its [state] record
    ([currentInput], [operator], [previousInput], [shouldResetDisplay]) and
    the methods [clear], [deleteLast], [appendNumber], [appendOperator],
    [calculate] and [formatNumber].

    ECMAScript values are modelled as follows.
    - Numbers are IEEE 754 binary64 values: [spec_float] of the Standard
      Library at precision 53 and maximal exponent 1024, with the library's
      correctly rounded [SFadd], [SFsub], [SFmul] and [SFdiv].
    - Strings are sequences of code units; the model covers code units
      below 256 ([string] of [ascii]).  Every string the engine builds from
      digit and decimal point tokens is of that kind.
    - [parseFloat], [Number.prototype.toString], [Math.round], [isNaN],
      [String.prototype.slice] and [String.prototype.includes] follow the
      ECMAScript specification.
    - A method body is a computation over the mutable [state] that
      completes normally, by [return], or by [throw].

    The writes to the DOM ([updateDisplay], [animateButton]) and to the
    console never flow back into [state]; the text shown is the derived
    read [formatNumber] of [currentInput]. *)

From Stdlib Require Import ZArith Bool List String Ascii Lia.
From Stdlib Require Import Decimal DecimalString.
From Stdlib Require Import Floats.SpecFloat.
Import ListNotations.

Local Open Scope string_scope.
Local Open Scope Z_scope.

(** ** ECMAScript Numbers *)

Module JSNumber.

Definition prec : Z := 53.
Definition emax : Z := 1024.

Definition number := spec_float.

Definition add : number -> number -> number := SFadd prec emax.
Definition sub : number -> number -> number := SFsub prec emax.
Definition mul : number -> number -> number := SFmul prec emax.
Definition div : number -> number -> number := SFdiv prec emax.

Definition NaN : number := S754_nan.
Definition pos_zero : number := S754_zero false.

(** [isNaN(x)] *)
Definition isNaN (x : number) : bool :=
  match x with S754_nan => true | _ => false end.

(** [x === y] on Numbers: false on NaN, true on [+0 === -0]. *)
Definition strict_eq (x y : number) : bool := SFeqb x y.

(** The Number nearest to the rational [sign * n / d], for [0 <= n] and
    [0 < d], ties to even: the library's division kernel followed by its
    rounding to the format. *)
Definition of_ratio (sign : bool) (n d : Z) : number :=
  if n =? 0 then S754_zero sign
  else
    let '(mz, ez, lz) := SFdiv_core_binary prec emax n 0 d 0 in
    binary_round_aux prec emax sign mz ez lz.

(** The Number nearest to [sign * c * 10^p]. *)
Definition of_decimal (sign : bool) (c p : Z) : number :=
  if 0 <=? p then of_ratio sign (c * 10 ^ p) 1
  else of_ratio sign c (10 ^ (- p)).

(** The Number value of an integer. *)
Definition of_Z (n : Z) : number :=
  of_ratio (n <? 0) (Z.abs n) 1.

(** [Number.EPSILON], 2^-52. *)
Definition EPSILON : number := of_ratio false 1 (2 ^ 52).

(** [Math.round(x)]: a Number that is not finite or is integral is
    returned as it is; otherwise the integral Number closest to [x], the
    one closer to +infinity in case of a tie, that is [floor (x + 1/2)];
    a zero result keeps the sign of [x]. *)
Definition Math_round (x : number) : number :=
  match x with
  | S754_finite s m e =>
      if 0 <=? e then x
      else
        let sm := if s then Z.neg m else Z.pos m in
        let n := (2 * sm + 2 ^ (- e)) / 2 ^ (1 - e) in
        if n =? 0 then S754_zero s else of_Z n
  | _ => x
  end.

(** ** [parseFloat] *)

Definition code (c : ascii) : Z := Z.of_N (N_of_ascii c).

Definition is_digit (c : ascii) : bool := (48 <=? code c) && (code c <=? 57).

(** WhiteSpace and LineTerminator code units below 256: TAB, LF, VT, FF,
    CR, SP and NBSP. *)
Definition is_white (c : ascii) : bool :=
  ((9 <=? code c) && (code c <=? 13)) || (code c =? 32) || (code c =? 160).

Fixpoint trim_start (s : string) : string :=
  match s with
  | String c t => if is_white c then trim_start t else s
  | EmptyString => s
  end.

(** The longest prefix of decimal digits, and what follows it. *)
Fixpoint span_digits (s : string) : string * string :=
  match s with
  | String c t =>
      if is_digit c then let '(ds, r) := span_digits t in (String c ds, r)
      else (EmptyString, s)
  | EmptyString => (EmptyString, EmptyString)
  end.

(** The value of a string of decimal digits, most significant first. *)
Fixpoint digits_value (acc : Z) (ds : string) : Z :=
  match ds with
  | String c t => digits_value (10 * acc + (code c - 48)) t
  | EmptyString => acc
  end.

Definition Zlength (s : string) : Z := Z.of_nat (String.length s).

(** ExponentPart: [e] or [E], an optional sign and at least one digit;
    0 when the text does not start with one. *)
Definition exponent_part (s : string) : Z :=
  match s with
  | String c t =>
      if (code c =? 101) || (code c =? 69) then
        let '(neg, t') :=
          match t with
          | String "+" u => (false, u)
          | String "-" u => (true, u)
          | _ => (false, t)
          end in
        let '(ds, _) := span_digits t' in
        match ds with
        | EmptyString => 0
        | _ => if neg then - digits_value 0 ds else digits_value 0 ds
        end
      else 0
  | EmptyString => 0
  end.

(** StrUnsignedDecimalLiteral: [Infinity], or digits with an optional
    fraction and exponent, or a fraction that starts with the point. *)
Definition parse_unsigned (sign : bool) (s : string) : number :=
  if String.prefix "Infinity" s then S754_infinity sign
  else
    let '(ip, r) := span_digits s in
    let '(fp, r') :=
      match r with
      | String "." t => span_digits t
      | _ => (EmptyString, r)
      end in
    match ip, fp with
    | EmptyString, EmptyString => NaN
    | _, _ =>
        of_decimal sign (digits_value 0 (ip ++ fp))
                   (exponent_part r' - Zlength fp)
    end.

(** [parseFloat(string)]: leading white space is skipped, the longest
    prefix that is a StrDecimalLiteral is converted, and [NaN] is
    returned when there is none.  The literal is converted to the nearest
    Number whatever its number of digits, as the engines do. *)
Definition parseFloat (s : string) : number :=
  match trim_start s with
  | String "+" t => parse_unsigned false t
  | String "-" t => parse_unsigned true t
  | t => parse_unsigned false t
  end.

(** [parseFloat] of a [string | null] field: [null] is first converted
    to the string ["null"]. *)
Definition parseFloat_nullable (v : option string) : number :=
  parseFloat (match v with Some s => s | None => "null" end).

(** ** [Number.prototype.toString] *)

(** The decimal digits of a natural number, without leading zeros. *)
Definition digits_of (n : Z) : string :=
  NilZero.string_of_uint (N.to_uint (Z.to_N n)).

Fixpoint zeros (n : nat) : string :=
  match n with
  | O => EmptyString
  | S n' => String "0" (zeros n')
  end.

Definition same_finite (x : number) (m : positive) (e : Z) : bool :=
  match x with
  | S754_finite false m' e' => Pos.eqb m m' && (e =? e')
  | _ => false
  end.

(** For the positive Number [num / den] = [m * 2^e] and the integer [n]
    with [10^(n-1) <= num / den < 10^n]: the integer [s] of [k] digits
    such that [s * 10^(n-k)] converts back to the Number, for the least
    [k] from the given one on; of two such integers the one closer to
    the Number, and the even one when they are as close.  The result is
    [(s, k, n)]; the upper neighbour [10^k] is returned as [10^(k-1)]
    with [n + 1]. *)
Fixpoint shortest_from (fuel : nat) (m : positive) (e : Z)
         (num den n k : Z) : Z * Z * Z :=
  let a := Z.max (k - n) 0 in
  let b := Z.max (n - k) 0 in
  let lo := (num * 10 ^ a) / (den * 10 ^ b) in
  let hi := lo + 1 in
  let ok_lo := same_finite (of_decimal false lo (n - k)) m e in
  let ok_hi := same_finite (of_decimal false hi (n - k)) m e in
  let up := if hi =? 10 ^ k then (10 ^ (k - 1), k, n + 1) else (hi, k, n) in
  let down := (lo, k, n) in
  if ok_lo && ok_hi then
    match (2 * num * 10 ^ a) ?= ((lo + hi) * (den * 10 ^ b)) with
    | Lt => down
    | Gt => up
    | Eq => if Z.even lo then down else up
    end
  else if ok_lo then down
  else if ok_hi then up
  else
    match fuel with
    | O => down
    | S fuel' => shortest_from fuel' m e num den n (k + 1)
    end.

Definition shortest (m : positive) (e : Z) : Z * Z * Z :=
  let num := Z.pos m * 2 ^ (Z.max e 0) in
  let den := 2 ^ (Z.max (- e) 0) in
  let n := Zlength (digits_of (num * 10 ^ 400 / den)) - 400 in
  shortest_from 16 m e num den n 1.

(** Steps 5 to 7 of Number::toString for a positive finite Number, in
    radix 10. *)
Definition positive_toString (m : positive) (e : Z) : string :=
  let '(s, k, n) := shortest m e in
  let ds := digits_of s in
  if (k <=? n) && (n <=? 21) then
    ds ++ zeros (Z.to_nat (n - k))
  else if (0 <? n) && (n <=? 21) then
    substring 0 (Z.to_nat n) ds ++ "." ++
    substring (Z.to_nat n) (Z.to_nat (k - n)) ds
  else if (-6 <? n) && (n <=? 0) then
    "0." ++ zeros (Z.to_nat (- n)) ++ ds
  else
    let x := n - 1 in
    let sign := if x <? 0 then "-" else "+" in
    if k =? 1 then ds ++ "e" ++ sign ++ digits_of (Z.abs x)
    else
      substring 0 1 ds ++ "." ++ substring 1 (Z.to_nat (k - 1)) ds ++
      "e" ++ sign ++ digits_of (Z.abs x).

(** [x.toString()] *)
Definition toString (x : number) : string :=
  match x with
  | S754_nan => "NaN"
  | S754_zero _ => "0"
  | S754_infinity false => "Infinity"
  | S754_infinity true => "-Infinity"
  | S754_finite false m e => positive_toString m e
  | S754_finite true m e => "-" ++ positive_toString m e
  end.

End JSNumber.

(** ** ECMAScript Strings *)

Module JSString.

Definition length (s : string) : Z := Z.of_nat (String.length s).

(** [s.includes(sub)] *)
Fixpoint includes (s sub : string) : bool :=
  String.prefix sub s ||
  match s with
  | String _ t => includes t sub
  | EmptyString => false
  end.

(** [s.slice(start, end)]: a negative index counts from the end, both
    indices are clamped to the string. *)
Definition slice (s : string) (start finish : Z) : string :=
  let len := length s in
  let from := if start <? 0 then Z.max (len + start) 0 else Z.min start len in
  let to := if finish <? 0 then Z.max (len + finish) 0 else Z.min finish len in
  substring (Z.to_nat from) (Z.to_nat (Z.max (to - from) 0)) s.

End JSString.

(** ** The state of the engine *)

(** [interface CalculatorState] *)
Record CalculatorState : Type := mkState {
  currentInput : string;
  operator : option string;
  previousInput : option string;
  shouldResetDisplay : bool
}.

(** [type Operation = '+' | '-' | '*' | '/'] *)
Inductive Operation : Type := Plus | Minus | Times | Divide.

Definition Operation_string (op : Operation) : string :=
  match op with
  | Plus => "+"
  | Minus => "-"
  | Times => "*"
  | Divide => "/"
  end.

(** The [state] the constructor builds, and [clear] builds again. *)
Definition initial_state : CalculatorState :=
  {| currentInput := "0";
     operator := None;
     previousInput := None;
     shouldResetDisplay := false |}.

(** ** Method bodies

    A statement runs on the current [state] and completes normally, by
    [return] or by [throw]; the state it leaves is the state at that
    point. *)

Inductive completion (A : Type) : Type :=
| Normal (a : A)
| Return
| Throw (error : string).

Arguments Normal {A} a.
Arguments Return {A}.
Arguments Throw {A} error.

Definition M (A : Type) : Type := CalculatorState -> completion A * CalculatorState.

Definition ret {A} (a : A) : M A := fun s => (Normal a, s).

Definition bind {A B} (m : M A) (f : A -> M B) : M B :=
  fun s =>
    match m s with
    | (Normal a, s') => f a s'
    | (Return, s') => (Return, s')
    | (Throw e, s') => (Throw e, s')
    end.

Declare Scope js_scope.
Delimit Scope js_scope with js.
Notation "x <- m ;; k" := (bind m (fun x => k))
  (at level 61, m at next level, right associativity) : js_scope.
Notation "m ;; k" := (bind m (fun _ => k))
  (at level 61, right associativity) : js_scope.
Local Open Scope js_scope.

Definition get : M CalculatorState := fun s => (Normal s, s).
Definition put (s : CalculatorState) : M unit := fun _ => (Normal tt, s).

(** [return;] *)
Definition return_ {A} : M A := fun s => (Return, s).

(** [throw new Error(message)] *)
Definition throw {A} (message : string) : M A := fun s => (Throw message, s).

(** [if (b) { m }] *)
Definition when (b : bool) (m : M unit) : M unit := if b then m else ret tt.

(** [try { body } catch (error) { handler }]: a [throw] in [body] is
    handled, a [return] in [body] leaves the method. *)
Definition try_catch (body : M unit) (handler : string -> M unit) : M unit :=
  fun s =>
    match body s with
    | (Throw e, s') => handler e s'
    | r => r
    end.

(** [this.m()] as a statement: a [return] of the callee ends the call,
    a [throw] goes on to the caller. *)
Definition call (m : M unit) : M unit :=
  fun s =>
    match m s with
    | (Return, s') => (Normal tt, s')
    | r => r
    end.

(** Assignments to the fields of [this.state]. *)
Definition set_currentInput (v : string) : M unit :=
  fun s => (Normal tt, mkState v (operator s) (previousInput s) (shouldResetDisplay s)).
Definition set_operator (v : option string) : M unit :=
  fun s => (Normal tt, mkState (currentInput s) v (previousInput s) (shouldResetDisplay s)).
Definition set_previousInput (v : option string) : M unit :=
  fun s => (Normal tt, mkState (currentInput s) (operator s) v (shouldResetDisplay s)).
Definition set_shouldResetDisplay (v : bool) : M unit :=
  fun s => (Normal tt, mkState (currentInput s) (operator s) (previousInput s) v).

(** What the caller of a method sees. *)
Inductive outcome : Type :=
| Returned (s : CalculatorState)
| Raised (error : string) (s : CalculatorState).

Definition run (m : M unit) (s : CalculatorState) : outcome :=
  match m s with
  | (Throw e, s') => Raised e s'
  | (_, s') => Returned s'
  end.

(** ** The [Calculator] class *)

Module Calculator.

Import JSNumber JSString.

(** [this.display.textContent = this.formatNumber(...)]: a write to the
    page only. *)
Definition updateDisplay : M unit := ret tt.

(** [animateButton(button)]: a class toggled on the page, and a timer. *)
Definition animateButton : M unit := ret tt.

(** [console.error(...)] *)
Definition console_error : M unit := ret tt.

(** [formatNumber(num)].  [toLocaleString] stands for the host's
    [number.toLocaleString('en-US', {maximumFractionDigits: 8,
    useGrouping: true})]. *)
Definition formatNumber (toLocaleString : number -> string) (num : string)
  : string :=
  if (num =? "Error")%string then num
  else
    let number := parseFloat num in
    if isNaN number then num
    else if SFleb (of_Z 1000) (SFabs number) then toLocaleString number
    else toString number.

Definition clear : M unit :=
  put {| currentInput := "0";
         operator := None;
         previousInput := None;
         shouldResetDisplay := false |} ;;
  updateDisplay ;;
  animateButton.

Definition deleteLast : M unit :=
  s <- get ;;
  (if 1 <? length (currentInput s)
   then set_currentInput (slice (currentInput s) 0 (-1))
   else set_currentInput "0") ;;
  updateDisplay.

Definition appendNumber (num : string) : M unit :=
  s <- get ;;
  when (shouldResetDisplay s)
    (set_currentInput EmptyString ;;
     set_shouldResetDisplay false) ;;
  (* Prevent multiple decimal points *)
  s <- get ;;
  when ((num =? ".")%string && includes (currentInput s) ".") return_ ;;
  (* Replace leading zero with number (except for decimal) *)
  s <- get ;;
  (if (currentInput s =? "0")%string && negb (num =? ".")%string
   then set_currentInput num
   else set_currentInput (currentInput s ++ num)) ;;
  updateDisplay.

(** [v === null] *)
Definition is_null {A} (v : option A) : bool :=
  match v with None => true | Some _ => false end.

(** [case lit:] of a [switch (v)] on a [string | null] value. *)
Definition case_eq_string (v : option string) (lit : string) : bool :=
  match v with Some x => (x =? lit)%string | None => false end.

Definition hundred_million : number := of_Z 100000000.

Definition calculate : M unit :=
  s <- get ;;
  when (is_null (operator s) || shouldResetDisplay s) return_ ;;
  let prev := parseFloat_nullable (previousInput s) in
  let current := parseFloat (currentInput s) in
  when (isNaN prev || isNaN current)
    (set_currentInput "Error" ;;
     updateDisplay ;;
     return_) ;;
  try_catch
    (result <-
       (if case_eq_string (operator s) "+" then ret (add prev current)
        else if case_eq_string (operator s) "-" then ret (sub prev current)
        else if case_eq_string (operator s) "*" then ret (mul prev current)
        else if case_eq_string (operator s) "/" then
          when (strict_eq current pos_zero) (throw "Division by zero") ;;
          ret (div prev current)
        else return_) ;;
     (* Handle floating point precision *)
     let result :=
       div (Math_round (mul (add result EPSILON) hundred_million))
           hundred_million in
     set_currentInput (toString result) ;;
     set_operator None ;;
     set_previousInput None ;;
     set_shouldResetDisplay true)
    (fun error =>
       set_currentInput "Error" ;;
       console_error) ;;
  updateDisplay ;;
  animateButton.

Definition appendOperator (op : Operation) : M unit :=
  (* If there's a pending calculation, perform it first *)
  s <- get ;;
  when (negb (is_null (operator s)) && negb (shouldResetDisplay s))
    (call calculate) ;;
  set_operator (Some (Operation_string op)) ;;
  s <- get ;;
  set_previousInput (Some (currentInput s)) ;;
  set_shouldResetDisplay true ;;
  (* Animate operator button *)
  animateButton.

(** [getCurrentInput()], [getOperator()], [getPreviousInput()] *)
Definition getCurrentInput (s : CalculatorState) : string := currentInput s.
Definition getOperator (s : CalculatorState) : option string := operator s.
Definition getPreviousInput (s : CalculatorState) : option string :=
  previousInput s.

End Calculator.

(** ** Sequences of operations *)

(** A call of one of the five public operations. *)
Inductive action : Type :=
| AppendNumber (num : string)
| AppendOperator (op : Operation)
| Calculate
| Clear
| DeleteLast.

Definition method (a : action) : M unit :=
  match a with
  | AppendNumber num => Calculator.appendNumber num
  | AppendOperator op => Calculator.appendOperator op
  | Calculate => Calculator.calculate
  | Clear => Calculator.clear
  | DeleteLast => Calculator.deleteLast
  end.

(** The tokens [appendNumber] is called with: one decimal digit, or the
    decimal point. *)
Definition is_token (num : string) : bool :=
  match num with
  | String c EmptyString => JSNumber.is_digit c || (JSNumber.code c =? 46)
  | _ => false
  end.

Definition valid_action (a : action) : bool :=
  match a with
  | AppendNumber num => is_token num
  | _ => true
  end.

(** The state after a sequence of calls, when all of them return. *)
Fixpoint run_all (acts : list action) (s : CalculatorState)
  : option CalculatorState :=
  match acts with
  | [] => Some s
  | a :: rest =>
      match run (method a) s with
      | Returned s' => run_all rest s'
      | Raised _ _ => None
      end
  end.

(** The states of an engine after construction and any number of calls. *)
Inductive reachable : CalculatorState -> Prop :=
| reachable_initial : reachable initial_state
| reachable_step s a s' :
    reachable s ->
    valid_action a = true ->
    run (method a) s = Returned s' ->
    reachable s'.

(** ** The rounding the specification describes *)

Module Specified.

Import JSNumber.

(** Round half away from zero: [floor (|x| + 1/2)] with the sign of [x]. *)
Definition round_half_away_from_zero (x : number) : number :=
  match x with
  | S754_finite s m e =>
      if 0 <=? e then x
      else
        let n := (2 * Z.pos m + 2 ^ (- e)) / 2 ^ (1 - e) in
        if n =? 0 then S754_zero s else of_ratio s n 1
  | _ => x
  end.

(** [(result + epsilon)] scaled by 10^8, rounded half away from zero, and
    scaled back. *)
Definition rounded (result : number) : number :=
  div (round_half_away_from_zero
         (mul (add result EPSILON) Calculator.hundred_million))
      Calculator.hundred_million.

End Specified.

(** The operation an [Operation] stands for. *)
Definition apply_operation (op : Operation) (prev current : JSNumber.number)
  : JSNumber.number :=
  match op with
  | Plus => JSNumber.add prev current
  | Minus => JSNumber.sub prev current
  | Times => JSNumber.mul prev current
  | Divide => JSNumber.div prev current
  end.

(** A finite Number below zero. *)
Definition is_negative (x : JSNumber.number) : bool :=
  match x with
  | S754_finite true _ _ => true
  | _ => false
  end.

(** ** The methods as state transformers

    What each method leaves in [state], branch by branch; [method_run]
    below shows that the methods compute exactly these states. *)

Module Post.

Import JSNumber JSString Calculator.

(** [state] with another [currentInput]. *)
Definition with_currentInput (v : string) (s : CalculatorState) : CalculatorState :=
  mkState v (operator s) (previousInput s) (shouldResetDisplay s).

(** The result of the rounding step of [calculate]. *)
Definition rounded_result (result : number) : number :=
  div (Math_round (mul (add result EPSILON) hundred_million)) hundred_million.

(** The state in which [calculate] leaves a result. *)
Definition committed (result : number) : CalculatorState :=
  mkState (toString (rounded_result result)) None None true.

(** The state [calculate] leaves, branch by branch. *)
Definition calculate_post (s : CalculatorState) : CalculatorState :=
  let prev := parseFloat_nullable (previousInput s) in
  let current := parseFloat (currentInput s) in
  if is_null (operator s) || shouldResetDisplay s then s
  else if isNaN prev || isNaN current then with_currentInput "Error" s
  else if case_eq_string (operator s) "+" then committed (add prev current)
  else if case_eq_string (operator s) "-" then committed (sub prev current)
  else if case_eq_string (operator s) "*" then committed (mul prev current)
  else if case_eq_string (operator s) "/" then
    if strict_eq current pos_zero then with_currentInput "Error" s
    else committed (div prev current)
  else s.

Definition deleteLast_post (s : CalculatorState) : CalculatorState :=
  with_currentInput
    (if 1 <? length (currentInput s) then slice (currentInput s) 0 (-1)
     else "0") s.

Definition appendNumber_post (num : string) (s : CalculatorState) : CalculatorState :=
  let cur := if shouldResetDisplay s then EmptyString else currentInput s in
  mkState
    (if (num =? ".")%string && includes cur "." then cur
     else if (cur =? "0")%string && negb (num =? ".")%string then num
     else (cur ++ num)%string)
    (operator s) (previousInput s) false.

Definition appendOperator_post (op : Operation) (s : CalculatorState) : CalculatorState :=
  let s' :=
    if negb (is_null (operator s)) && negb (shouldResetDisplay s)
    then calculate_post s else s in
  mkState (currentInput s') (Some (Operation_string op))
          (Some (currentInput s')) true.

Definition post (a : action) (s : CalculatorState) : CalculatorState :=
  match a with
  | AppendNumber num => appendNumber_post num s
  | AppendOperator op => appendOperator_post op s
  | Calculate => calculate_post s
  | Clear => initial_state
  | DeleteLast => deleteLast_post s
  end.

End Post.

(** ** Keyboard and button entry points *)

Module Entry.

Import JSString Calculator.

(** [a < b] on Strings: the code units are compared from the left, and a
    proper prefix is smaller. *)
Fixpoint string_lt (a b : string) : bool :=
  match a, b with
  | _, EmptyString => false
  | EmptyString, String _ _ => true
  | String x a', String y b' =>
      if JSNumber.code x <? JSNumber.code y then true
      else if JSNumber.code x =? JSNumber.code y then string_lt a' b'
      else false
  end.

(** [a >= b] and [a <= b] on Strings. *)
Definition string_ge (a b : string) : bool := negb (string_lt a b).
Definition string_le (a b : string) : bool := negb (string_lt b a).

(** [isDigit(key)] *)
Definition isDigit (key : string) : bool :=
  string_ge key "0" && string_le key "9".

(** [array.includes(value)] on an array of strings. *)
Definition array_includes (array : list string) (value : string) : bool :=
  existsb (fun x => (x =? value)%string) array.

(** [isOperation(key)] *)
Definition isOperation (key : string) : bool :=
  array_includes ["+"; "-"; "*"; "/"] key.

(** [key as Operation], for a key [isOperation] accepts. *)
Definition as_Operation (key : string) : Operation :=
  if (key =? "+")%string then Plus
  else if (key =? "-")%string then Minus
  else if (key =? "*")%string then Times
  else Divide.

(** [handleKeyPress(key)] *)
Definition handleKeyPress (key : string) : M unit :=
  if isDigit key || (key =? ".")%string then
    call (appendNumber key)
  else if isOperation key then
    call (appendOperator (as_Operation key))
  else if (key =? "Enter")%string || (key =? "=")%string then
    call calculate
  else if (key =? "Escape")%string || (key =? "c")%string
          || (key =? "C")%string then
    call clear
  else if (key =? "Backspace")%string then
    call deleteLast
  else ret tt.

(** The global [calculator]: [undefined] until the page is loaded, then
    the instance.  [calculator?.m()] calls nothing on [undefined]. *)
Definition optional_call (calculator : option CalculatorState) (m : M unit)
  : option outcome :=
  match calculator with
  | Some s => Some (run m s)
  | None => None
  end.

(** The global functions for the buttons of the page: [clearDisplay()]. *)
Definition clearDisplay (calculator : option CalculatorState) : option outcome :=
  optional_call calculator clear.

(** The global [deleteLast()]. *)
Definition global_deleteLast (calculator : option CalculatorState)
  : option outcome :=
  optional_call calculator deleteLast.

(** The global [appendToDisplay(value)]. *)
Definition appendToDisplay (value : string)
           (calculator : option CalculatorState) : option outcome :=
  if array_includes ["+"; "-"; "*"; "/"] value then
    optional_call calculator (appendOperator (as_Operation value))
  else
    optional_call calculator (appendNumber value).

(** The global [calculate()]. *)
Definition global_calculate (calculator : option CalculatorState)
  : option outcome :=
  optional_call calculator calculate.

(** The state after a sequence of key presses, when all of them return. *)
Fixpoint press_all (keys : list string) (s : CalculatorState)
  : option CalculatorState :=
  match keys with
  | [] => Some s
  | key :: rest =>
      match run (handleKeyPress key) s with
      | Returned s' => press_all rest s'
      | Raised _ _ => None
      end
  end.

End Entry.

(** ** Typing *)

(** The calls of [appendNumber] that type a text, one code unit each. *)
Fixpoint typing (text : string) : list action :=
  match text with
  | String c t => AppendNumber (String c EmptyString) :: typing t
  | EmptyString => []
  end.

(** The number of decimal points of a text. *)
Fixpoint points (text : string) : nat :=
  match text with
  | String c t =>
      if JSNumber.code c =? 46 then S (points t) else points t
  | EmptyString => 0%nat
  end.

(** A text of decimal digits and decimal points. *)
Fixpoint is_numeric_text (text : string) : bool :=
  match text with
  | String c t =>
      (JSNumber.is_digit c || (JSNumber.code c =? 46)) && is_numeric_text t
  | EmptyString => true
  end.

(** A text of decimal digits. *)
Fixpoint all_digits (text : string) : bool :=
  match text with
  | String c t => JSNumber.is_digit c && all_digits t
  | EmptyString => true
  end.

(** The first code unit is a decimal digit. *)
Definition starts_with_digit (text : string) : bool :=
  match text with
  | String c _ => JSNumber.is_digit c
  | EmptyString => false
  end.

(** [n] calls of [deleteLast]. *)
Definition backspaces (n : nat) : list action := repeat DeleteLast n.

(** No digit is typed onto a lone leading zero: a text that starts with
    "0" goes on with the decimal point, or ends there. *)
Definition no_leading_zero (text : string) : bool :=
  match text with
  | String c (String c' _) =>
      if JSNumber.code c =? 48 then JSNumber.code c' =? 46 else true
  | _ => true
  end.

(** A text that types to itself as an operand: it starts with a digit,
    puts no digit on a lone leading zero and holds at most one decimal
    point. *)
Definition is_operand (text : string) : bool :=
  starts_with_digit text && no_leading_zero text && (points text <=? 1)%nat.

(** The division by zero [calculate] throws on. *)
Definition divides_by_zero (op : Operation) (current : JSNumber.number) : bool :=
  match op with
  | Divide => JSNumber.strict_eq current JSNumber.pos_zero
  | _ => false
  end.

(** * Properties *)

(** ** Strings *)

Section StringFacts.

Lemma append_empty_inv (a b : string) :
  (a ++ b)%string = EmptyString -> a = EmptyString /\ b = EmptyString.
Proof.
  destruct a as [|c a]; simpl; intros H; [now split | discriminate].
Qed.

Lemma append_nonempty_l (a b : string) :
  a <> EmptyString -> (a ++ b)%string <> EmptyString.
Proof.
  intros Ha H. apply append_empty_inv in H. now destruct H.
Qed.

Lemma append_nonempty_r (a b : string) :
  b <> EmptyString -> (a ++ b)%string <> EmptyString.
Proof.
  intros Hb H. apply append_empty_inv in H. now destruct H.
Qed.

Lemma prefix_append (sub b : string) :
  String.prefix sub (sub ++ b) = true.
Proof.
  induction sub as [|c sub IH]; simpl.
  - now destruct b.
  - destruct (ascii_dec c c); [exact IH | congruence].
Qed.

Lemma includes_unfold (s sub : string) :
  JSString.includes s sub =
  String.prefix sub s ||
  match s with
  | String _ t => JSString.includes t sub
  | EmptyString => false
  end.
Proof. destruct s; reflexivity. Qed.

(** [includes] finds every occurrence. *)
Lemma includes_occurrence (a sub b : string) :
  JSString.includes (a ++ sub ++ b) sub = true.
Proof.
  induction a as [|c a IH].
  - simpl append. rewrite includes_unfold, prefix_append. reflexivity.
  - simpl append. rewrite includes_unfold, IH. apply orb_true_r.
Qed.

Lemma length_nonneg (s : string) : 0 <= JSString.length s.
Proof. unfold JSString.length. lia. Qed.

Lemma length_zero_empty (s : string) :
  JSString.length s = 0 -> s = EmptyString.
Proof.
  destruct s; [reflexivity|]. unfold JSString.length. simpl. lia.
Qed.

(** A string that is not empty ends with a last code unit. *)
Lemma string_snoc (s : string) :
  s <> EmptyString -> exists t c, s = (t ++ String c EmptyString)%string.
Proof.
  induction s as [|a s IH]; intros H; [congruence|].
  destruct s as [|b s].
  - exists EmptyString, a. reflexivity.
  - destruct IH as (t & c & E); [discriminate|].
    exists (String a t), c. simpl. now rewrite <- E.
Qed.

Lemma substring_0_length_append (t u : string) :
  substring 0 (String.length t) (t ++ u) = t.
Proof.
  induction t as [|c t IH]; simpl.
  - now destruct u.
  - now rewrite IH.
Qed.

Lemma length_append (t u : string) :
  String.length (t ++ u) = (String.length t + String.length u)%nat.
Proof. induction t as [|c t IH]; simpl; [reflexivity | now rewrite IH]. Qed.

(** [slice(0, -1)] drops the last code unit. *)
Lemma slice_drop_last (t : string) (c : ascii) :
  JSString.slice (t ++ String c EmptyString) 0 (-1) = t.
Proof.
  unfold JSString.slice, JSString.length.
  rewrite length_append. simpl String.length.
  replace (0 <? 0) with false by reflexivity.
  replace (-1 <? 0) with true by reflexivity.
  replace (Z.to_nat (Z.min 0 (Z.of_nat (String.length t + 1)))) with 0%nat by lia.
  replace (Z.to_nat _) with (String.length t) by lia.
  apply substring_0_length_append.
Qed.

Lemma slice_nonempty (s : string) :
  1 < JSString.length s -> JSString.slice s 0 (-1) <> EmptyString.
Proof.
  intros H.
  destruct (string_snoc s) as (t & c & ->).
  - intros ->. unfold JSString.length in H. simpl in H. lia.
  - rewrite slice_drop_last. intros ->.
    unfold JSString.length in H. simpl in H. lia.
Qed.

End StringFacts.

(** ** Numbers *)

Section NumberFacts.

Import JSNumber.

Lemma digits_of_nonempty (n : Z) : digits_of n <> EmptyString.
Proof.
  unfold digits_of, NilZero.string_of_uint.
  destruct (N.to_uint (Z.to_N n)); simpl; discriminate.
Qed.

Lemma positive_toString_nonempty (m : positive) (e : Z) :
  positive_toString m e <> EmptyString.
Proof.
  unfold positive_toString.
  destruct (shortest m e) as [[s k] n].
  repeat match goal with
         | |- (if ?b then _ else _) <> _ => destruct b
         end;
    try (apply append_nonempty_l, digits_of_nonempty);
    try (apply append_nonempty_r; discriminate);
    discriminate.
Qed.

(** [toString] never yields the empty string. *)
Lemma toString_nonempty (x : number) : toString x <> EmptyString.
Proof.
  destruct x as [s|s| |s m e]; simpl; try discriminate.
  - destruct s; discriminate.
  - destruct s; [discriminate|]. apply positive_toString_nonempty.
Qed.

(** The conversions and the arithmetic on a few values. *)
Example parseFloat_tenth :
  parseFloat "0.1" = S754_finite false 7205759403792794 (-56).
Proof. vm_compute. reflexivity. Qed.

Example parseFloat_prefix :
  parseFloat "12.5e1x" = parseFloat "125" /\
  parseFloat "1e+" = parseFloat "1" /\
  parseFloat "5." = parseFloat "5" /\
  parseFloat "." = NaN /\
  parseFloat "Error" = NaN /\
  parseFloat_nullable None = NaN.
Proof. vm_compute. repeat split. Qed.

Example toString_sum_of_tenths :
  toString (add (parseFloat "0.1") (parseFloat "0.2")) = "0.30000000000000004".
Proof. vm_compute. reflexivity. Qed.

Example toString_forms :
  toString (parseFloat "123456789012345678901") = "123456789012345680000" /\
  toString (parseFloat "1e21") = "1e+21" /\
  toString (parseFloat "0.000001") = "0.000001" /\
  toString (parseFloat "0.0000001") = "1e-7" /\
  toString (parseFloat "-1.25e-9") = "-1.25e-9" /\
  toString (div (parseFloat "1") (parseFloat "3")) = "0.3333333333333333" /\
  toString (div (parseFloat "1") (parseFloat "0")) = "Infinity" /\
  toString (parseFloat "-0") = "0".
Proof. vm_compute. repeat split. Qed.

Example Math_round_ties :
  Math_round (parseFloat "2.5") = parseFloat "3" /\
  Math_round (parseFloat "-2.5") = parseFloat "-2" /\
  Math_round (parseFloat "-2.6") = parseFloat "-3" /\
  Math_round (parseFloat "-0.5") = parseFloat "-0" /\
  Math_round (parseFloat "0.49") = parseFloat "0".
Proof. vm_compute. repeat split. Qed.

End NumberFacts.

(** ** The methods compute their state transformers *)

Section Methods.

Import JSNumber JSString Calculator Post.

Lemma state_eta (s : CalculatorState) :
  mkState (currentInput s) (operator s) (previousInput s) (shouldResetDisplay s) = s.
Proof. now destruct s. Qed.

Ltac run_method :=
  cbv [run calculate clear deleteLast appendNumber appendOperator call
       bind ret get put when return_ throw try_catch updateDisplay
       animateButton console_error set_currentInput set_operator
       set_previousInput set_shouldResetDisplay].

Lemma calculate_completion (s : CalculatorState) :
  calculate s = (Normal tt, calculate_post s) \/
  calculate s = (Return, calculate_post s).
Proof.
  unfold calculate_post, committed, rounded_result, with_currentInput. run_method.
  destruct (is_null (operator s) || shouldResetDisplay s); [now right|].
  destruct (isNaN _ || isNaN _); [now right|].
  destruct (case_eq_string (operator s) "+"); [now left|].
  destruct (case_eq_string (operator s) "-"); [now left|].
  destruct (case_eq_string (operator s) "*"); [now left|].
  destruct (case_eq_string (operator s) "/"); [|now right].
  destruct (strict_eq _ pos_zero); now left.
Qed.

Lemma calculate_run (s : CalculatorState) :
  run calculate s = Returned (calculate_post s).
Proof.
  unfold run. destruct (calculate_completion s) as [-> | ->]; reflexivity.
Qed.

Lemma call_calculate (s : CalculatorState) :
  call calculate s = (Normal tt, calculate_post s).
Proof.
  unfold call. destruct (calculate_completion s) as [-> | ->]; reflexivity.
Qed.

Lemma clear_run (s : CalculatorState) : run clear s = Returned initial_state.
Proof. reflexivity. Qed.

Lemma deleteLast_run (s : CalculatorState) :
  run deleteLast s = Returned (deleteLast_post s).
Proof.
  unfold deleteLast_post, with_currentInput. run_method.
  destruct (1 <? length (currentInput s)); reflexivity.
Qed.

Lemma appendNumber_run (num : string) (s : CalculatorState) :
  run (appendNumber num) s = Returned (appendNumber_post num s).
Proof.
  unfold appendNumber_post. run_method.
  destruct s as [cur op prev reset]; simpl.
  destruct reset; simpl.
  - destruct (num =? ".")%string; simpl; reflexivity.
  - destruct ((num =? ".")%string && includes cur "."); simpl; [reflexivity|].
    destruct ((cur =? "0")%string && negb (num =? ".")%string); reflexivity.
Qed.

Lemma appendOperator_run (op : Operation) (s : CalculatorState) :
  run (appendOperator op) s = Returned (appendOperator_post op s).
Proof.
  unfold appendOperator_post, run, appendOperator, bind, get, when.
  destruct (negb (is_null (operator s)) && negb (shouldResetDisplay s)).
  - rewrite call_calculate. reflexivity.
  - reflexivity.
Qed.

(** Every call returns, in the state [post] describes. *)
Lemma method_run (a : action) (s : CalculatorState) :
  run (method a) s = Returned (post a s).
Proof.
  destruct a; simpl.
  - apply appendNumber_run.
  - apply appendOperator_run.
  - apply calculate_run.
  - apply clear_run.
  - apply deleteLast_run.
Qed.

End Methods.

(** ** Reachable states *)

Section Reachability.

Import Post.

Lemma run_all_reachable (acts : list action) (s s' : CalculatorState) :
  reachable s ->
  forallb valid_action acts = true ->
  run_all acts s = Some s' ->
  reachable s'.
Proof.
  revert s. induction acts as [|a acts IH]; simpl; intros s Hs Hv Hr.
  - now injection Hr as <-.
  - apply andb_true_iff in Hv as [Ha Hv].
    destruct (run (method a) s) as [s1|] eqn:E; [|discriminate].
    apply (IH s1); auto. now apply reachable_step with s a.
Qed.

Lemma reachable_post (a : action) (s : CalculatorState) :
  reachable s -> valid_action a = true -> reachable (post a s).
Proof.
  intros Hs Ha. apply reachable_step with s a; auto. apply method_run.
Qed.

(** An invariant of all calls holds in every reachable state. *)
Lemma reachable_ind_post (P : CalculatorState -> Prop) :
  P initial_state ->
  (forall a s, valid_action a = true -> P s -> P (post a s)) ->
  forall s, reachable s -> P s.
Proof.
  intros H0 Hstep s Hs. induction Hs as [|s a s' Hs IH Ha Hrun]; [exact H0|].
  rewrite method_run in Hrun. injection Hrun as <-. now apply Hstep.
Qed.

End Reachability.

(** ** Invariants of the state *)

Section Invariants.

Import JSNumber JSString Calculator Post.

Lemma calculate_post_pending (s : CalculatorState) :
  (operator s <> None <-> previousInput s <> None) ->
  (operator (calculate_post s) <> None <-> previousInput (calculate_post s) <> None).
Proof.
  intros H. unfold calculate_post, committed, with_currentInput.
  repeat match goal with
         | |- context [if ?b then _ else _] => destruct b
         end; simpl; auto; tauto.
Qed.

Lemma post_pending (a : action) (s : CalculatorState) :
  (operator s <> None <-> previousInput s <> None) ->
  (operator (post a s) <> None <-> previousInput (post a s) <> None).
Proof.
  intros H. destruct a; simpl.
  - exact H.
  - split; discriminate.
  - now apply calculate_post_pending.
  - tauto.
  - exact H.
Qed.

(** C3: in every state reachable from the initial state by calls of
    appendNumber, appendOperator, calculate, clear and deleteLast, the
    field operator is non-null if and only if previousInput is non-null. *)
Theorem operator_iff_previousInput (s : CalculatorState) :
  reachable s ->
  (operator s <> None <-> previousInput s <> None).
Proof.
  revert s. apply reachable_ind_post.
  - simpl. tauto.
  - intros a s _. apply post_pending.
Qed.

Lemma operator_iff_previousInput_witness :
  let s := mkState "8" (Some "+") (Some "8") true in
  reachable s /\ (operator s <> None <-> previousInput s <> None).
Proof.
  assert (R : reachable (mkState "8" (Some "+") (Some "8") true)).
  { apply (run_all_reachable
             [AppendNumber "5"; AppendOperator Plus; AppendNumber "3";
              AppendOperator Plus] initial_state).
    - apply reachable_initial.
    - reflexivity.
    - vm_compute. reflexivity. }
  split; [exact R | apply (operator_iff_previousInput _ R)].
Defined.

Lemma includes_empty_point : includes EmptyString "." = false.
Proof. reflexivity. Qed.

Lemma token_nonempty (num : string) : is_token num = true -> num <> EmptyString.
Proof. destruct num; [discriminate | discriminate]. Qed.

Lemma appendNumber_post_nonempty (num : string) (s : CalculatorState) :
  num <> EmptyString ->
  currentInput s <> EmptyString ->
  currentInput (appendNumber_post num s) <> EmptyString.
Proof.
  intros Hn Hs. unfold appendNumber_post. simpl.
  destruct (shouldResetDisplay s).
  - rewrite includes_empty_point, andb_false_r. simpl.
    exact Hn.
  - destruct (_ && includes _ _); [exact Hs|].
    destruct (_ && negb _); [exact Hn|].
    now apply append_nonempty_r.
Qed.

Lemma calculate_post_nonempty (s : CalculatorState) :
  currentInput s <> EmptyString ->
  currentInput (calculate_post s) <> EmptyString.
Proof.
  intros Hs. unfold calculate_post, committed, with_currentInput.
  repeat match goal with
         | |- context [if ?b then _ else _] => destruct b
         end; simpl; try exact Hs; try discriminate; apply toString_nonempty.
Qed.

Lemma deleteLast_post_nonempty (s : CalculatorState) :
  currentInput (deleteLast_post s) <> EmptyString.
Proof.
  unfold deleteLast_post. simpl.
  destruct (1 <? length (currentInput s)) eqn:E; [|discriminate].
  apply slice_nonempty. now apply Z.ltb_lt.
Qed.

Lemma post_nonempty (a : action) (s : CalculatorState) :
  valid_action a = true ->
  currentInput s <> EmptyString ->
  currentInput (post a s) <> EmptyString.
Proof.
  intros Ha Hs. destruct a; simpl.
  - apply appendNumber_post_nonempty; [now apply token_nonempty | exact Hs].
  - unfold appendOperator_post. simpl.
    destruct (_ && _); [now apply calculate_post_nonempty | exact Hs].
  - now apply calculate_post_nonempty.
  - discriminate.
  - apply deleteLast_post_nonempty.
Qed.

(** C9: currentInput is never the empty string in a state reachable from
    the initial state: it starts as "0" and every operation leaves it
    non-empty on return. *)
Theorem currentInput_never_empty (s : CalculatorState) :
  reachable s ->
  currentInput s <> EmptyString.
Proof.
  revert s. apply reachable_ind_post.
  - discriminate.
  - intros a s Ha Hs. now apply post_nonempty.
Qed.

Lemma currentInput_never_empty_witness :
  let s := mkState "3" (Some "+") (Some "5") false in
  reachable s /\ currentInput s <> EmptyString.
Proof.
  assert (R : reachable (mkState "3" (Some "+") (Some "5") false)).
  { apply (run_all_reachable
             [AppendNumber "5"; AppendOperator Plus; AppendNumber "3"]
             initial_state).
    - apply reachable_initial.
    - reflexivity.
    - vm_compute. reflexivity. }
  split; [exact R | apply (currentInput_never_empty _ R)].
Defined.

End Invariants.

(** ** The operations *)

Section Operations.

Import JSNumber JSString Calculator Post.

(** C4: calculate is a no-op when no operator is pending or when
    shouldResetDisplay is true: it returns with currentInput, operator,
    previousInput and shouldResetDisplay unchanged. *)
Theorem calculate_noop (s : CalculatorState) :
  operator s = None \/ shouldResetDisplay s = true ->
  run calculate s = Returned s.
Proof.
  intros H. rewrite calculate_run. unfold calculate_post.
  destruct H as [-> | ->]; simpl; [reflexivity|].
  now rewrite orb_true_r.
Qed.

Lemma calculate_noop_witness :
  run calculate (mkState "8" (Some "+") (Some "8") true)
  = Returned (mkState "8" (Some "+") (Some "8") true).
Proof.
  apply (calculate_noop (mkState "8" (Some "+") (Some "8") true)).
  right. reflexivity.
Defined.

(** C5: clear is a total reset: from every state, and so from every
    reachable one, it yields the state of a freshly constructed engine,
    currentInput "0", operator null, previousInput null and
    shouldResetDisplay false. *)
Theorem clear_resets (s : CalculatorState) :
  run clear s = Returned initial_state /\
  initial_state = mkState "0" None None false.
Proof. split; reflexivity. Qed.

(** C6: division by zero is surfaced as the sentinel: appendNumber('8'),
    appendOperator('/'), appendNumber('0'), calculate() from the default
    state sets currentInput to "Error"; and no operation propagates an
    exception to its caller, every call returns. *)
Theorem division_by_zero_and_no_exception :
  run_all [AppendNumber "8"; AppendOperator Divide; AppendNumber "0"; Calculate]
          initial_state
  = Some (mkState "Error" (Some "/") (Some "8") false) /\
  forall (a : action) (s : CalculatorState),
    exists s', run (method a) s = Returned s'.
Proof.
  split.
  - vm_compute. reflexivity.
  - intros a s. exists (post a s). apply method_run.
Qed.

(** C7: appendNumber rejects a second decimal point: when
    shouldResetDisplay is false and currentInput contains '.',
    appendNumber('.') leaves the whole state unchanged. *)
Theorem appendNumber_second_point (s : CalculatorState) :
  shouldResetDisplay s = false ->
  (exists a b, currentInput s = (a ++ "." ++ b)%string) ->
  run (appendNumber ".") s = Returned s.
Proof.
  intros Hr (a & b & Hc). rewrite appendNumber_run. unfold appendNumber_post.
  assert (Hi : includes (currentInput s) "." = true)
    by (rewrite Hc; apply includes_occurrence).
  destruct s as [cur o p r]. simpl in *. subst r. now rewrite Hi.
Qed.

Lemma appendNumber_second_point_witness :
  run (appendNumber ".") (mkState "1.2" None None false)
  = Returned (mkState "1.2" None None false).
Proof.
  apply (appendNumber_second_point (mkState "1.2" None None false)).
  - reflexivity.
  - exists "1", "2". reflexivity.
Defined.

(** C8: deleteLast removes the last character of currentInput when its
    length is greater than 1 and sets currentInput to "0" otherwise; the
    other fields are kept.  So "5" becomes "0" and "12" becomes "1". *)
Theorem deleteLast_drops_last (s : CalculatorState) :
  exists s',
    run deleteLast s = Returned s' /\
    operator s' = operator s /\
    previousInput s' = previousInput s /\
    shouldResetDisplay s' = shouldResetDisplay s /\
    (if 1 <? length (currentInput s)
     then exists c, currentInput s = (currentInput s' ++ String c EmptyString)%string
     else currentInput s' = "0") /\
    run deleteLast (mkState "5" None None false)
    = Returned (mkState "0" None None false) /\
    run deleteLast (mkState "12" None None false)
    = Returned (mkState "1" None None false).
Proof.
  exists (deleteLast_post s). split; [apply deleteLast_run|].
  unfold deleteLast_post. simpl.
  split; [reflexivity|]. split; [reflexivity|]. split; [reflexivity|].
  split; [|split; vm_compute; reflexivity].
  destruct (1 <? length (currentInput s)) eqn:E; [|reflexivity].
  apply Z.ltb_lt in E.
  destruct (string_snoc (currentInput s)) as (t & c & Hc).
  - intros H0. rewrite H0 in E. unfold length in E. simpl in E. lia.
  - exists c. rewrite Hc at 2. now rewrite slice_drop_last.
Qed.

(** C10: when calculate proceeds (operator pending, shouldResetDisplay
    false) and the computation fails, because an operand does not parse
    as a number or because the operator is '/' and the second operand is
    zero, only currentInput changes, to "Error": operator, previousInput
    and shouldResetDisplay keep their values. *)
Theorem calculate_failure_keeps_pending (s : CalculatorState) :
  operator s <> None ->
  shouldResetDisplay s = false ->
  isNaN (parseFloat_nullable (previousInput s)) = true \/
  isNaN (parseFloat (currentInput s)) = true \/
  (operator s = Some "/" /\
   strict_eq (parseFloat (currentInput s)) pos_zero = true) ->
  run calculate s
  = Returned (mkState "Error" (operator s) (previousInput s) false).
Proof.
  intros Hop Hr Hfail. rewrite calculate_run.
  unfold calculate_post, with_currentInput. rewrite Hr.
  destruct (operator s) as [o|] eqn:Eo; [|congruence]. simpl.
  destruct (isNaN (parseFloat_nullable (previousInput s))) eqn:Ep;
    [reflexivity|].
  destruct (isNaN (parseFloat (currentInput s))) eqn:Ec; [reflexivity|].
  destruct Hfail as [H | [H | [H Hz]]]; try discriminate.
  injection H as ->. simpl. now rewrite Hz.
Qed.

Lemma calculate_failure_keeps_pending_witness :
  run calculate (mkState "0" (Some "/") (Some "8") false)
  = Returned (mkState "Error" (Some "/") (Some "8") false).
Proof.
  apply (calculate_failure_keeps_pending (mkState "0" (Some "/") (Some "8") false)).
  - discriminate.
  - reflexivity.
  - right. right. split; reflexivity.
Defined.

(** C2: chained binary operations resolve left to right: from the default
    state, appendNumber('5'), appendOperator('+'), appendNumber('3'),
    appendOperator('+'), appendNumber('2'), calculate() leaves
    currentInput equal to "10".  The second appendOperator finds an
    operator pending and shouldResetDisplay false, so it first invokes
    calculate, which turns 5 + 3 into the left operand "8". *)
Theorem chained_operators_left_to_right :
  run_all [AppendNumber "5"; AppendOperator Plus; AppendNumber "3";
           AppendOperator Plus; AppendNumber "2"; Calculate] initial_state
  = Some (mkState "10" None None true) /\
  run_all [AppendNumber "5"; AppendOperator Plus; AppendNumber "3"]
          initial_state
  = Some (mkState "3" (Some "+") (Some "5") false) /\
  run calculate (mkState "3" (Some "+") (Some "5") false)
  = Returned (mkState "8" None None true) /\
  run (appendOperator Plus) (mkState "3" (Some "+") (Some "5") false)
  = Returned (mkState "8" (Some "+") (Some "8") true) /\
  forall (op : Operation) (s : CalculatorState),
    exists s1,
      run calculate s = Returned s1 /\
      run (appendOperator op) s
      = Returned
          (let s' :=
             if negb (is_null (operator s)) && negb (shouldResetDisplay s)
             then s1 else s in
           mkState (currentInput s') (Some (Operation_string op))
                   (Some (currentInput s')) true).
Proof.
  split; [vm_compute; reflexivity|].
  split; [vm_compute; reflexivity|].
  split; [vm_compute; reflexivity|].
  split; [vm_compute; reflexivity|].
  intros op s. exists (calculate_post s). split.
  - apply calculate_run.
  - apply appendOperator_run.
Qed.

End Operations.

(** ** Rounding of the result *)

Section Rounding.

Import JSNumber JSString Calculator Post.

(** [Math_round] yields the integer [n] with [n - 1/2 <= x < n + 1/2]:
    the nearest one, and the upper one of two that are as near. *)
Lemma Math_round_nearest_ties_up (s : bool) (m : positive) (e : Z) :
  e < 0 ->
  let sm := if s then Z.neg m else Z.pos m in
  let n := (2 * sm + 2 ^ (- e)) / 2 ^ (1 - e) in
  (2 * n - 1) * 2 ^ (- e) <= 2 * sm < (2 * n + 1) * 2 ^ (- e).
Proof.
  intros He sm n.
  assert (Hd : 0 < 2 ^ (- e)) by (apply Z.pow_pos_nonneg; lia).
  assert (H2 : 2 ^ (1 - e) = 2 * 2 ^ (- e)).
  { replace (1 - e) with (Z.succ (- e)) by lia. apply Z.pow_succ_r. lia. }
  subst n. rewrite H2.
  pose proof (Z.div_mod (2 * sm + 2 ^ (- e)) (2 * 2 ^ (- e))) as Hdm.
  pose proof (Z.mod_pos_bound (2 * sm + 2 ^ (- e)) (2 * 2 ^ (- e))) as Hb.
  set (q := (2 * sm + 2 ^ (- e)) / (2 * 2 ^ (- e))) in *.
  set (r := (2 * sm + 2 ^ (- e)) mod (2 * 2 ^ (- e))) in *.
  set (d := 2 ^ (- e)) in *.
  assert (0 <= r < 2 * d) by (apply Hb; lia).
  assert (2 * sm + d = 2 * d * q + r) by (apply Hdm; lia).
  split; nia.
Qed.

(** On a Number that is not below zero, [Math.round] rounds half away
    from zero. *)
Lemma Math_round_not_negative (x : number) :
  is_negative x = false ->
  Math_round x = Specified.round_half_away_from_zero x.
Proof.
  destruct x as [s|s| |s m e]; try reflexivity.
  destruct s; [discriminate|]. intros _.
  unfold Math_round, Specified.round_half_away_from_zero.
  destruct (0 <=? e) eqn:He; [reflexivity|].
  apply Z.leb_gt in He.
  set (n := (2 * Z.pos m + 2 ^ (- e)) / 2 ^ (1 - e)).
  assert (Hn : 0 <= n).
  { apply Z.div_pos.
    - assert (0 < 2 ^ (- e)) by (apply Z.pow_pos_nonneg; lia). lia.
    - apply Z.pow_pos_nonneg; lia. }
  destruct (n =? 0); [reflexivity|].
  unfold of_Z. rewrite Z.abs_eq by exact Hn.
  replace (n <? 0) with false; [reflexivity|].
  symmetry. apply Z.ltb_ge. exact Hn.
Qed.

Ltac eval_string_eqb :=
  repeat match goal with
         | |- context [String.eqb ?a ?b] =>
             let v := eval vm_compute in (String.eqb a b) in
             change (String.eqb a b) with v
         end.

(** C1, with the rounding calculate performs: when an operator is pending
    and a second operand has been entered, and the computation does not
    fail, the numeric result is rounded to 8 decimal places by Math.round (nearest integer,
    the one closer to +infinity on a tie) applied to (result + epsilon)
    scaled by 10^8, epsilon being 2^-52; this is round-half-away-from-zero
    whenever the scaled value is not below zero.  Entering 0.1, +, 0.2, =
    yields currentInput "0.3", which is displayed as "0.3". *)
Theorem calculate_rounds_result (s : CalculatorState) (op : Operation) :
  operator s = Some (Operation_string op) ->
  shouldResetDisplay s = false ->
  isNaN (parseFloat_nullable (previousInput s)) = false ->
  isNaN (parseFloat (currentInput s)) = false ->
  op <> Divide \/ strict_eq (parseFloat (currentInput s)) pos_zero = false ->
  let result :=
    apply_operation op (parseFloat_nullable (previousInput s))
                    (parseFloat (currentInput s)) in
  let scaled := mul (add result EPSILON) hundred_million in
  run calculate s
  = Returned (mkState (toString (div (Math_round scaled) hundred_million))
                      None None true) /\
  (if is_negative scaled then True
   else run calculate s
        = Returned (mkState (toString (Specified.rounded result))
                            None None true)) /\
  EPSILON = S754_finite false (2 ^ 52) (-104) /\
  hundred_million = S754_finite false (10 ^ 8 * 2 ^ 26) (-26) /\
  run_all [AppendNumber "0"; AppendNumber "."; AppendNumber "1";
           AppendOperator Plus;
           AppendNumber "0"; AppendNumber "."; AppendNumber "2";
           Calculate] initial_state
  = Some (mkState "0.3" None None true) /\
  forall toLocaleString, formatNumber toLocaleString "0.3" = "0.3".
Proof.
  intros Hop Hr Hp Hc Hz result scaled.
  assert (E : run calculate s
              = Returned (mkState (toString (div (Math_round scaled) hundred_million))
                                  None None true)).
  { rewrite calculate_run. unfold calculate_post, committed, rounded_result.
    rewrite Hop, Hr, Hp, Hc. subst scaled result.
    destruct op; cbv [Operation_string case_eq_string is_null orb apply_operation];
      eval_string_eqb; cbv iota; try reflexivity.
    destruct Hz as [Hz | Hz]; [congruence|]. now rewrite Hz. }
  split; [exact E|].
  split.
  - destruct (is_negative scaled) eqn:Hs; [exact I|].
    rewrite E. unfold Specified.rounded. fold result. fold scaled.
    now rewrite <- Math_round_not_negative.
  - split; [vm_compute; reflexivity|].
    split; [vm_compute; reflexivity|].
    split; [vm_compute; reflexivity|].
    intros toLocaleString. vm_compute. reflexivity.
Qed.

Lemma calculate_rounds_result_witness :
  run calculate (mkState "0.2" (Some "+") (Some "0.1") false)
  = Returned (mkState "0.3" None None true).
Proof.
  destruct (calculate_rounds_result
              (mkState "0.2" (Some "+") (Some "0.1") false) Plus) as [H _].
  - reflexivity.
  - reflexivity.
  - vm_compute. reflexivity.
  - vm_compute. reflexivity.
  - left. discriminate.
  - rewrite H. vm_compute. reflexivity.
Defined.

(** C1 with round-half-away-from-zero does not hold on a negative tie:
    for 0 - 6.000000005 the scaled value is -600000000.5, which
    [Math.round] takes to -600000000 and round-half-away-from-zero to
    -600000001. *)
Lemma calculate_not_half_away_from_zero :
  let s := mkState "6.000000005" (Some "-") (Some "0") false in
  let result := sub (parseFloat "0") (parseFloat "6.000000005") in
  run_all [AppendOperator Minus; AppendNumber "6"; AppendNumber ".";
           AppendNumber "0"; AppendNumber "0"; AppendNumber "0";
           AppendNumber "0"; AppendNumber "0"; AppendNumber "0";
           AppendNumber "0"; AppendNumber "0"; AppendNumber "5"]
          initial_state = Some s /\
  toString (mul (add result EPSILON) hundred_million) = "-600000000.5" /\
  run calculate s = Returned (mkState "-6" None None true) /\
  toString (Specified.rounded result) = "-6.00000001" /\
  run calculate s
  <> Returned (mkState (toString (Specified.rounded result)) None None true).
Proof.
  cbv zeta.
  split; [vm_compute; reflexivity|].
  split; [vm_compute; reflexivity|].
  split; [vm_compute; reflexivity|].
  split; [vm_compute; reflexivity|].
  vm_compute. discriminate.
Qed.

End Rounding.

(** * Further properties of the engine *)

(** ** How the operations compose *)

Section Composition.

Import JSNumber JSString Calculator Post.

Lemma run_all_app (xs ys : list action) (s : CalculatorState) :
  run_all (xs ++ ys) s =
  match run_all xs s with
  | Some s' => run_all ys s'
  | None => None
  end.
Proof.
  revert s. induction xs as [|a xs IH]; intros s; simpl; [reflexivity|].
  destruct (run (method a) s); [apply IH | reflexivity].
Qed.

Lemma run_all_cons (a : action) (acts : list action) (s : CalculatorState) :
  run_all (a :: acts) s = run_all acts (post a s).
Proof. simpl. now rewrite method_run. Qed.

Lemma parseFloat_Error (w : string) : parseFloat ("Error" ++ w) = NaN.
Proof. reflexivity. Qed.

Lemma calculate_post_idempotent (s : CalculatorState) :
  calculate_post (calculate_post s) = calculate_post s.
Proof.
  assert (Herr : forall s0,
             is_null (operator s0) || shouldResetDisplay s0 = false ->
             calculate_post (with_currentInput "Error" s0)
             = with_currentInput "Error" s0).
  { intros s0 H0. unfold calculate_post at 1. simpl.
    rewrite H0. change (parseFloat "Error") with NaN.
    simpl isNaN. now rewrite orb_true_r. }
  assert (Hcom : forall r, calculate_post (committed r) = committed r)
    by reflexivity.
  assert (H : calculate_post s = s \/
              (is_null (operator s) || shouldResetDisplay s = false /\
               calculate_post s = with_currentInput "Error" s) \/
              exists r, calculate_post s = committed r).
  { unfold calculate_post.
    destruct (is_null (operator s) || shouldResetDisplay s); [now left|].
    destruct (isNaN _ || isNaN _); [right; left; now split|].
    destruct (case_eq_string (operator s) "+"); [right; right; eauto|].
    destruct (case_eq_string (operator s) "-"); [right; right; eauto|].
    destruct (case_eq_string (operator s) "*"); [right; right; eauto|].
    destruct (case_eq_string (operator s) "/"); [|now left].
    destruct (strict_eq _ pos_zero); [right; left; now split|].
    right; right; eauto. }
  destruct H as [H | [[H0 H] | [r H]]]; rewrite H.
  - exact H.
  - now apply Herr.
  - apply Hcom.
Qed.

(** X1: calculate is idempotent: a second calculate right after the first
    changes nothing, whether the first was a no-op, left a result or left
    "Error". *)
Theorem calculate_twice (s : CalculatorState) :
  run_all [Calculate; Calculate] s = run_all [Calculate] s.
Proof.
  rewrite !run_all_cons. simpl. now rewrite calculate_post_idempotent.
Qed.

(** X2: of two operators pressed one after the other the last one wins:
    appendOperator(op1) followed by appendOperator(op2) leaves the state
    that appendOperator(op2) alone leaves, and the pending operation is
    resolved at most once. *)
Theorem appendOperator_last_wins (op1 op2 : Operation) (s : CalculatorState) :
  run_all [AppendOperator op1; AppendOperator op2] s
  = run_all [AppendOperator op2] s.
Proof.
  rewrite !run_all_cons. reflexivity.
Qed.

(** X3: deleteLast undoes appendNumber: when shouldResetDisplay is false,
    currentInput is not empty and the token is one character that is not
    a rejected second decimal point, appendNumber followed by deleteLast
    gives the state back, also when the token replaced a lone "0". *)
Theorem deleteLast_undoes_appendNumber (c : ascii) (s : CalculatorState) :
  shouldResetDisplay s = false ->
  currentInput s <> EmptyString ->
  (code c =? 46) && includes (currentInput s) "." = false ->
  run_all [AppendNumber (String c EmptyString); DeleteLast] s = Some s.
Proof.
  intros Hr Hn Hp. rewrite !run_all_cons. cbn [run_all post]. f_equal.
  destruct s as [cur o p r].
  cbn [shouldResetDisplay currentInput operator previousInput] in *. subst r.
  unfold appendNumber_post, deleteLast_post, with_currentInput.
  cbn [shouldResetDisplay currentInput operator previousInput].
  assert (Hdot : (String c EmptyString =? ".")%string = (code c =? 46)).
  { destruct (Z.eqb_spec (code c) 46) as [E|E].
    - assert (c = "."%char) as ->; [|reflexivity].
      rewrite <- (ascii_N_embedding c), <- (ascii_N_embedding "."%char).
      f_equal. unfold code in E. simpl. lia.
    - apply String.eqb_neq. intros [= ->]. now apply E. }
  rewrite Hdot, Hp.
  destruct ((cur =? "0")%string && negb (code c =? 46)) eqn:E0.
  - apply andb_true_iff in E0 as [E0 _]. apply String.eqb_eq in E0.
    subst cur. reflexivity.
  - rewrite slice_drop_last.
    replace (1 <? length (cur ++ String c EmptyString)) with true;
      [reflexivity|].
    symmetry. apply Z.ltb_lt. unfold length. rewrite length_append.
    destruct cur; [congruence|]. simpl. lia.
Qed.

Lemma deleteLast_undoes_appendNumber_witness :
  run_all [AppendNumber "7"; DeleteLast] (mkState "12.5" (Some "+") (Some "3") false)
  = Some (mkState "12.5" (Some "+") (Some "3") false).
Proof.
  apply (deleteLast_undoes_appendNumber "7" (mkState "12.5" (Some "+") (Some "3") false)).
  - reflexivity.
  - discriminate.
  - reflexivity.
Defined.

Lemma backspaces_on_zero (n : nat) (o p : option string) (r : bool) :
  run_all (backspaces n) (mkState "0" o p r) = Some (mkState "0" o p r).
Proof.
  induction n as [|n IH]; [reflexivity|].
  unfold backspaces. simpl repeat. rewrite run_all_cons. exact IH.
Qed.

(** X4: deleteLast erases the operand one character at a time and ends at
    "0": at least as many calls as currentInput has characters, and at
    least one, leave currentInput "0" and the other fields untouched. *)
Theorem backspaces_reach_zero (n : nat) (s : CalculatorState) :
  (1 <= n)%nat ->
  (String.length (currentInput s) <= n)%nat ->
  run_all (backspaces n) s
  = Some (mkState "0" (operator s) (previousInput s) (shouldResetDisplay s)).
Proof.
  revert s. induction n as [|n IH]; intros s H1 Hlen; [lia|].
  unfold backspaces. simpl repeat. rewrite run_all_cons. simpl post.
  unfold deleteLast_post, with_currentInput.
  destruct (1 <? length (currentInput s)) eqn:E.
  - apply Z.ltb_lt in E. unfold length in E.
    destruct (string_snoc (currentInput s)) as (t & c & Hc).
    { intros H0. rewrite H0 in E. simpl in E. lia. }
    rewrite Hc, slice_drop_last.
    rewrite Hc, length_append in E, Hlen. simpl in E, Hlen.
    fold (backspaces n). rewrite IH; simpl; [reflexivity | lia | lia].
  - fold (backspaces n). apply backspaces_on_zero.
Qed.

Lemma backspaces_reach_zero_witness :
  run_all (backspaces 4) (mkState "12.5" (Some "+") (Some "3") false)
  = Some (mkState "0" (Some "+") (Some "3") false).
Proof.
  apply (backspaces_reach_zero 4 (mkState "12.5" (Some "+") (Some "3") false)).
  - lia.
  - simpl. lia.
Defined.

(** X5: an operand that starts with the decimal point right after an
    operator is not a number: with an operator pending and
    shouldResetDisplay true, appendNumber('.') leaves currentInput "."
    (not "0."), and calculate then fails with "Error". *)
Theorem point_after_operator_fails (s : CalculatorState) :
  operator s <> None ->
  shouldResetDisplay s = true ->
  run_all [AppendNumber "."] s
  = Some (mkState "." (operator s) (previousInput s) false) /\
  run_all [AppendNumber "."; Calculate] s
  = Some (mkState "Error" (operator s) (previousInput s) false).
Proof.
  intros Ho Hr.
  assert (E : appendNumber_post "." s
              = mkState "." (operator s) (previousInput s) false).
  { unfold appendNumber_post. now rewrite Hr. }
  rewrite !run_all_cons. simpl. rewrite E. split; [reflexivity|].
  f_equal. unfold calculate_post, with_currentInput. simpl.
  destruct (operator s); [|congruence]. simpl.
  change (parseFloat ".") with NaN. simpl isNaN. now rewrite orb_true_r.
Qed.

Lemma point_after_operator_fails_witness :
  run_all [AppendNumber "."; Calculate] (mkState "5" (Some "+") (Some "5") true)
  = Some (mkState "Error" (Some "+") (Some "5") false).
Proof.
  apply (point_after_operator_fails (mkState "5" (Some "+") (Some "5") true));
    [discriminate | reflexivity].
Defined.

Lemma typing_after_Error (text w : string) (o p : option string) :
  exists w',
    run_all (typing text) (mkState ("Error" ++ w) o p false)
    = Some (mkState ("Error" ++ w') o p false).
Proof.
  revert w. induction text as [|c t IH]; intros w.
  - exists w. reflexivity.
  - simpl typing. rewrite run_all_cons. simpl post.
    unfold appendNumber_post. cbn [shouldResetDisplay currentInput operator previousInput].
    change (("Error" ++ w =? "0")%string) with false. cbn [andb].
    destruct (_ && includes _ _).
    + apply IH.
    + replace (("Error" ++ w) ++ String c EmptyString)%string
        with ("Error" ++ (w ++ String c EmptyString))%string by reflexivity.
      apply IH.
Qed.

(** X6: the error is sticky under typing: once currentInput is "Error"
    with the operator still pending, whatever is typed is appended to
    "Error", and calculate fails again and leaves "Error", with operator
    and previousInput as they were. *)
Theorem error_survives_typing (text : string) (s : CalculatorState) :
  currentInput s = "Error" ->
  operator s <> None ->
  shouldResetDisplay s = false ->
  run_all (typing text ++ [Calculate]) s
  = Some (mkState "Error" (operator s) (previousInput s) false).
Proof.
  intros Hc Ho Hr. destruct s as [cur o p r]. simpl in *. subst cur r.
  rewrite run_all_app.
  destruct (typing_after_Error text EmptyString o p) as (w' & Hw).
  change ("Error" ++ EmptyString)%string with "Error" in Hw. rewrite Hw.
  rewrite run_all_cons. cbn [run_all]. f_equal.
  unfold post, calculate_post, with_currentInput.
  cbn [shouldResetDisplay currentInput operator previousInput].
  destruct o; [|congruence]. cbn [is_null orb].
  rewrite parseFloat_Error. cbn [isNaN NaN]. now rewrite orb_true_r.
Qed.

Lemma error_survives_typing_witness :
  run_all (typing "12" ++ [Calculate]) (mkState "Error" (Some "/") (Some "8") false)
  = Some (mkState "Error" (Some "/") (Some "8") false).
Proof.
  apply (error_survives_typing "12" (mkState "Error" (Some "/") (Some "8") false));
    [reflexivity | discriminate | reflexivity].
Defined.

End Composition.

(** ** Further invariants of the reachable states *)

Section MoreInvariants.

Import JSNumber JSString Calculator Post.

Lemma points_append (a b : string) :
  points (a ++ b) = (points a + points b)%nat.
Proof.
  induction a as [|c a IH]; simpl; [reflexivity|].
  destruct (code c =? 46); simpl; now rewrite IH.
Qed.

Lemma points_substring (n m : nat) (s : string) :
  (points (substring n m s) <= points s)%nat.
Proof.
  revert n m. induction s as [|c s IH]; intros n m.
  - destruct n, m; simpl; lia.
  - destruct n as [|n].
    + destruct m as [|m]; simpl; [lia|].
      specialize (IH 0%nat m). destruct (code c =? 46); lia.
    + simpl. specialize (IH n m). destruct (code c =? 46); lia.
Qed.

Lemma points_zeros (n : nat) : points (zeros n) = 0%nat.
Proof. induction n as [|n IH]; simpl; [reflexivity | exact IH]. Qed.

Lemma points_digits_of (n : Z) : points (digits_of n) = 0%nat.
Proof.
  unfold digits_of, NilZero.string_of_uint.
  assert (H : forall d, points (NilEmpty.string_of_uint d) = 0%nat)
    by (induction d; simpl; auto).
  destruct (N.to_uint (Z.to_N n)); try apply H. reflexivity.
Qed.

Lemma points_positive_toString (m : positive) (e : Z) :
  (points (positive_toString m e) <= 1)%nat.
Proof.
  unfold positive_toString.
  destruct (shortest m e) as [[s k] n].
  pose proof (points_digits_of s) as Hs.
  pose proof (fun a b => points_substring a b (digits_of s)) as Hsub.
  repeat match goal with
         | |- context [if ?b then _ else _] => destruct b
         end;
    rewrite ?points_append, ?points_zeros, ?points_digits_of;
    repeat match goal with
           | |- context [points (substring ?a ?b (digits_of s))] =>
               let H := fresh in
               pose proof (Hsub a b) as H;
               generalize dependent (points (substring a b (digits_of s)));
               intros
           end;
    simpl; lia.
Qed.

(** [toString] writes at most one decimal point. *)
Lemma points_toString (x : number) : (points (toString x) <= 1)%nat.
Proof.
  destruct x as [s|s| |s m e]; simpl; try lia.
  - destruct s; simpl; lia.
  - destruct s.
    + change ("-" ++ positive_toString m e)%string
        with (String "-" (positive_toString m e)).
      simpl. apply points_positive_toString.
    + apply points_positive_toString.
Qed.

Lemma code_point (c : ascii) : code c = 46 -> c = "."%char.
Proof.
  intros E. rewrite <- (ascii_N_embedding c), <- (ascii_N_embedding "."%char).
  f_equal. unfold code in E. simpl. lia.
Qed.

Lemma includes_point_false (s : string) :
  includes s "." = false -> points s = 0%nat.
Proof.
  induction s as [|c s IH]; [reflexivity|].
  rewrite includes_unfold. intros H. apply orb_false_iff in H as [Hp Hi].
  simpl. destruct (Z.eqb_spec (code c) 46) as [E|E].
  - apply code_point in E. subst c. simpl in Hp. now destruct s.
  - now apply IH.
Qed.

Lemma points_token (num : string) :
  is_token num = true -> (points num <= 1)%nat.
Proof.
  destruct num as [|c [|c' t]]; try discriminate. intros _. simpl.
  destruct (code c =? 46); lia.
Qed.

Lemma points_digit_token (num : string) :
  is_token num = true -> (num =? ".")%string = false -> points num = 0%nat.
Proof.
  destruct num as [|c [|c' t]]; try discriminate. intros _ Hn. simpl.
  destruct (Z.eqb_spec (code c) 46) as [E|E]; [|reflexivity].
  apply code_point in E. now subst c.
Qed.

Lemma points_slice_drop_last (s : string) :
  1 < length s -> (points (slice s 0 (-1)) <= points s)%nat.
Proof.
  intros H. destruct (string_snoc s) as (t & c & ->).
  - intros ->. unfold length in H. simpl in H. lia.
  - rewrite slice_drop_last, points_append. lia.
Qed.

Lemma calculate_post_points (s : CalculatorState) :
  (points (currentInput s) <= 1)%nat ->
  (points (currentInput (calculate_post s)) <= 1)%nat.
Proof.
  intros H. unfold calculate_post, committed, with_currentInput.
  repeat match goal with
         | |- context [if ?b then _ else _] => destruct b
         end;
    cbn [currentInput]; try exact H; try apply points_toString;
    simpl; lia.
Qed.

Lemma post_points (a : action) (s : CalculatorState) :
  valid_action a = true ->
  (points (currentInput s) <= 1)%nat ->
  (points (currentInput (post a s)) <= 1)%nat.
Proof.
  intros Ha H. destruct a as [num|op| | |]; cbn [post].
  - cbn [valid_action] in Ha. unfold appendNumber_post. cbn [currentInput].
    set (cur := if shouldResetDisplay s then EmptyString else currentInput s).
    assert (Hcur : (points cur <= 1)%nat)
      by (subst cur; destruct (shouldResetDisplay s); simpl; lia).
    destruct (num =? ".")%string eqn:En; cbn [andb negb].
    + destruct (includes cur ".") eqn:Ei; [exact Hcur|].
      rewrite andb_false_r, points_append, (includes_point_false _ Ei).
      simpl. apply (points_token _ Ha).
    + destruct (_ && true); [apply (points_token _ Ha)|].
      rewrite points_append, (points_digit_token _ Ha En). lia.
  - unfold appendOperator_post. cbn [currentInput].
    destruct (_ && _); [now apply calculate_post_points | exact H].
  - now apply calculate_post_points.
  - simpl. lia.
  - unfold deleteLast_post, with_currentInput. cbn [currentInput].
    destruct (1 <? length (currentInput s)) eqn:E; [|simpl; lia].
    apply Z.ltb_lt in E. pose proof (points_slice_drop_last _ E). lia.
Qed.

(** X7: the guard of appendNumber does prevent multiple decimal points:
    in every reachable state currentInput holds at most one decimal
    point, whether it was typed, shortened by deleteLast or written by
    calculate. *)
Theorem at_most_one_point (s : CalculatorState) :
  reachable s ->
  (points (currentInput s) <= 1)%nat.
Proof.
  revert s. apply reachable_ind_post.
  - simpl. lia.
  - intros a s Ha Hs. now apply post_points.
Qed.

Lemma at_most_one_point_witness :
  (points (currentInput (mkState "1.5" None None false)) <= 1)%nat.
Proof.
  apply at_most_one_point.
  apply (run_all_reachable
           [AppendNumber "1"; AppendNumber "."; AppendNumber "."; AppendNumber "5"]
           initial_state).
  - apply reachable_initial.
  - reflexivity.
  - vm_compute. reflexivity.
Defined.

Lemma calculate_post_operator (s : CalculatorState) :
  (operator s = None \/ exists op, operator s = Some (Operation_string op)) ->
  operator (calculate_post s) = None \/
  exists op, operator (calculate_post s) = Some (Operation_string op).
Proof.
  intros H. unfold calculate_post, committed, with_currentInput.
  repeat match goal with
         | |- context [if ?b then _ else _] => destruct b
         end; cbn [operator]; auto.
Qed.

(** X8: in every reachable state the pending operator is null or one of
    "+", "-", "*", "/", so the default branch of the switch in calculate
    is never taken there: calculate either changes nothing, or leaves
    "Error" with the operation still pending, or commits a result. *)
Theorem operator_is_an_operation (s : CalculatorState) :
  reachable s ->
  (operator s = None \/ exists op, operator s = Some (Operation_string op)) /\
  (run calculate s = Returned s /\
   (operator s = None \/ shouldResetDisplay s = true) \/
   run calculate s
   = Returned (mkState "Error" (operator s) (previousInput s) false) \/
   exists op,
     operator s = Some (Operation_string op) /\
     run calculate s
     = Returned
         (committed (apply_operation op
                       (parseFloat_nullable (previousInput s))
                       (parseFloat (currentInput s))))).
Proof.
  intros Hs.
  assert (Hop : operator s = None \/
                exists op, operator s = Some (Operation_string op)).
  { revert s Hs. apply reachable_ind_post; [now left|].
    intros a s _ H. destruct a; cbn [post]; auto.
    - right. now exists op.
    - now apply calculate_post_operator. }
  split; [exact Hop|]. rewrite calculate_run.
  destruct Hop as [Ho | [op Ho]].
  { left. unfold calculate_post. rewrite Ho. auto. }
  destruct (shouldResetDisplay s) eqn:Er.
  { left. unfold calculate_post. rewrite Ho, Er. auto. }
  unfold calculate_post, with_currentInput. rewrite Ho, Er.
  cbn [is_null orb].
  destruct (isNaN _ || isNaN _); [now right; left|].
  destruct op; cbv [Operation_string case_eq_string apply_operation];
    repeat match goal with
           | |- context [String.eqb ?a ?b] =>
               let v := eval vm_compute in (String.eqb a b) in
               change (String.eqb a b) with v
           end; cbv iota.
  - right; right. exists Plus. auto.
  - right; right. exists Minus. auto.
  - right; right. exists Times. auto.
  - destruct (strict_eq _ pos_zero); [now right; left|].
    right; right. exists Divide. auto.
Qed.

Lemma operator_is_an_operation_witness :
  operator (mkState "3" (Some "+") (Some "5") false) = None \/
  exists op, operator (mkState "3" (Some "+") (Some "5") false)
             = Some (Operation_string op).
Proof.
  apply operator_is_an_operation.
  apply (run_all_reachable
           [AppendNumber "5"; AppendOperator Plus; AppendNumber "3"]
           initial_state).
  - apply reachable_initial.
  - reflexivity.
  - vm_compute. reflexivity.
Defined.

End MoreInvariants.

(** ** Typing operands *)

Section Typing.

Import JSNumber JSString Calculator Post.

Lemma includes_point_true (s : string) :
  includes s "." = true -> (1 <= points s)%nat.
Proof.
  induction s as [|c s IH]; [discriminate|].
  rewrite includes_unfold. intros H. simpl.
  destruct (Z.eqb_spec (code c) 46) as [E|E]; [lia|].
  apply orb_true_iff in H as [H|H].
  - change (String.prefix "." (String c s))
      with (if ascii_dec "." c then String.prefix EmptyString s else false) in H.
    destruct (ascii_dec "." c) as [<-|]; [|discriminate H].
    now contradiction E.
  - apply IH in H. lia.
Qed.

Lemma single_is_point (c : ascii) :
  (String c EmptyString =? ".")%string = (code c =? 46).
Proof.
  destruct (Z.eqb_spec (code c) 46) as [E|E].
  - apply code_point in E. now subst c.
  - apply String.eqb_neq. intros [= ->]. now apply E.
Qed.

Lemma append_assoc (a b c : string) :
  ((a ++ b) ++ c)%string = (a ++ (b ++ c))%string.
Proof. induction a as [|x a IH]; simpl; [reflexivity | now rewrite IH]. Qed.

Lemma append_single_not_zero (cur : string) (c : ascii) :
  cur <> EmptyString -> (cur ++ String c EmptyString)%string <> "0".
Proof.
  destruct cur as [|x [|y cur]]; simpl; congruence.
Qed.

(** Typing onto an operand that is neither empty nor a lone "0" appends
    every code unit, as long as no second decimal point comes. *)
Lemma typing_appends (rest cur : string) (o p : option string) :
  cur <> EmptyString ->
  cur <> "0" ->
  (points (cur ++ rest) <= 1)%nat ->
  run_all (typing rest) (mkState cur o p false)
  = Some (mkState (cur ++ rest) o p false).
Proof.
  revert cur. induction rest as [|c t IH]; intros cur Hne Hnz Hp.
  - simpl. f_equal. f_equal.
    clear. induction cur as [|x cur IH]; simpl; [reflexivity | now rewrite <- IH].
  - cbn [typing]. rewrite run_all_cons. cbn [post].
    unfold appendNumber_post.
    cbn [shouldResetDisplay currentInput operator previousInput].
    rewrite single_is_point.
    assert (Hg : (code c =? 46) && includes cur "." = false).
    { destruct (code c =? 46) eqn:Ec; [|reflexivity].
      destruct (includes cur ".") eqn:Ei; [|reflexivity].
      apply includes_point_true in Ei. rewrite points_append in Hp.
      simpl in Hp. rewrite Ec in Hp. lia. }
    rewrite Hg.
    replace ((cur =? "0")%string) with false
      by (symmetry; now apply String.eqb_neq).
    cbn [andb].
    replace (cur ++ String c t)%string
      with ((cur ++ String c EmptyString) ++ t)%string
      in * by (now rewrite append_assoc).
    apply IH; [now apply append_nonempty_r | now apply append_single_not_zero
              | exact Hp].
Qed.

(** Typing a fresh operand, hypothesis by hypothesis. *)
Lemma typing_fresh (text : string) (s : CalculatorState) :
  starts_with_digit text = true ->
  no_leading_zero text = true ->
  (points text <= 1)%nat ->
  shouldResetDisplay s = true \/
  (shouldResetDisplay s = false /\ currentInput s = "0") ->
  run_all (typing text) s
  = Some (mkState text (operator s) (previousInput s) false).
Proof.
  intros Hd Hz Hp Hs. destruct text as [|c rest]; [discriminate|].
  cbn [starts_with_digit] in Hd.
  assert (Hc : (code c =? 46) = false).
  { unfold is_digit in Hd. apply andb_true_iff in Hd as [H1 H2].
    apply Z.leb_le in H1. apply Z.eqb_neq. lia. }
  assert (E1 : appendNumber_post (String c EmptyString) s
               = mkState (String c EmptyString) (operator s) (previousInput s) false).
  { unfold appendNumber_post. rewrite single_is_point, Hc.
    destruct Hs as [-> | [-> ->]]; reflexivity. }
  cbn [typing]. rewrite run_all_cons. cbn [post]. rewrite E1.
  destruct (String.eqb_spec (String c EmptyString) "0") as [E0 | E0].
  - injection E0 as ->. destruct rest as [|c' t]; [reflexivity|].
    cbn [no_leading_zero] in Hz. change (code "0" =? 48) with true in Hz.
    cbn iota in Hz. apply Z.eqb_eq, code_point in Hz. subst c'.
    cbn [typing]. rewrite run_all_cons.
    change (post (AppendNumber ".") (mkState "0" (operator s) (previousInput s) false))
      with (mkState "0." (operator s) (previousInput s) false).
    apply (typing_appends t "0."); [discriminate | discriminate | exact Hp].
  - apply (typing_appends rest (String c EmptyString));
      [discriminate | exact E0 | exact Hp].
Qed.

(** X9: appendNumber accumulates what is typed verbatim: from a state
    that starts a fresh operand (shouldResetDisplay true, or currentInput
    "0"), typing a text that starts with a digit, holds at most one
    decimal point and puts no digit on a lone leading zero leaves exactly
    that text in currentInput, with operator and previousInput kept. *)
Theorem typing_is_verbatim (text : string) (s : CalculatorState) :
  starts_with_digit text = true ->
  no_leading_zero text = true ->
  (points text <= 1)%nat ->
  shouldResetDisplay s = true \/
  (shouldResetDisplay s = false /\ currentInput s = "0") ->
  run_all (typing text) s
  = Some (mkState text (operator s) (previousInput s) false).
Proof.
  intros Hd Hz Hp Hs. destruct Hs as [Hs | [Hs Hc]].
  - apply typing_fresh; auto.
  - apply typing_fresh; auto.
Qed.

Lemma typing_is_verbatim_witness :
  run_all (typing "120.5") (mkState "8" (Some "+") (Some "8") true)
  = Some (mkState "120.5" (Some "+") (Some "8") false).
Proof.
  apply (typing_is_verbatim "120.5" (mkState "8" (Some "+") (Some "8") true)).
  - reflexivity.
  - reflexivity.
  - simpl. lia.
  - left. reflexivity.
Defined.

End Typing.

(** ** Operands that parse *)

Section Parsing.

Import JSNumber JSString Calculator Post.

Lemma shr_1_nonneg (mrs : shr_record) :
  0 <= shr_m mrs -> 0 <= shr_m (shr_1 mrs).
Proof.
  destruct mrs as [m r s]. simpl.
  destruct m as [|[p|p|]|[p|p|]]; simpl; lia.
Qed.

Lemma iter_shr_1_nonneg (p : positive) (mrs : shr_record) :
  0 <= shr_m mrs -> 0 <= shr_m (iter_pos shr_1 p mrs).
Proof.
  revert mrs. induction p as [p IH|p IH|]; intros mrs H; simpl.
  - apply IH, IH, shr_1_nonneg, H.
  - apply IH, IH, H.
  - apply shr_1_nonneg, H.
Qed.

Lemma shr_fexp_nonneg (m e : Z) (l : location) :
  0 <= m -> 0 <= shr_m (fst (shr_fexp prec emax m e l)).
Proof.
  intros H. unfold shr_fexp, shr.
  assert (H0 : 0 <= shr_m (shr_record_of_loc m l))
    by (destruct l as [|[]]; exact H).
  destruct (fexp prec emax (Zdigits2 m + e) - e); simpl; auto.
  now apply iter_shr_1_nonneg.
Qed.

Lemma round_nearest_even_nonneg (m : Z) (l : location) :
  0 <= m -> 0 <= round_nearest_even m l.
Proof.
  intros H. destruct l as [|[]]; simpl; try lia.
  destruct (Z.even m); lia.
Qed.

(** Rounding a magnitude to the format gives a Number. *)
Lemma binary_round_aux_not_nan (sign : bool) (m e : Z) (l : location) :
  0 <= m -> isNaN (binary_round_aux prec emax sign m e l) = false.
Proof.
  intros H. unfold binary_round_aux.
  pose proof (shr_fexp_nonneg m e l H) as H1.
  destruct (shr_fexp prec emax m e l) as [mrs' e']. simpl in H1.
  pose proof (shr_fexp_nonneg _ e' loc_Exact
                (round_nearest_even_nonneg _ (loc_of_shr_record mrs') H1)) as H2.
  destruct (shr_fexp prec emax (round_nearest_even _ _) e' loc_Exact)
    as [mrs'' e'']. simpl in H2.
  destruct (shr_m mrs'') as [|q|q]; [reflexivity | | lia].
  destruct (e'' <=? emax - prec); reflexivity.
Qed.

Lemma of_ratio_not_nan (sign : bool) (n d : Z) :
  0 <= n -> 0 < d -> isNaN (of_ratio sign n d) = false.
Proof.
  intros Hn Hd. unfold of_ratio. destruct (n =? 0); [reflexivity|].
  unfold SFdiv_core_binary.
  set (e' := Z.min _ _). set (m' := match 0 - 0 - e' with
                                    | 0 => n
                                    | Z.pos _ => Z.shiftl n (0 - 0 - e')
                                    | Z.neg _ => 0
                                    end).
  assert (Hm : 0 <= m').
  { subst m'. destruct (0 - 0 - e'); try lia. now apply Z.shiftl_nonneg. }
  assert (Hq : 0 <= m' / d) by (apply Z.div_pos; lia).
  unfold Z.div in Hq. destruct (Z.div_eucl m' d) as [q r].
  now apply binary_round_aux_not_nan.
Qed.

Lemma of_decimal_not_nan (sign : bool) (c p : Z) :
  0 <= c -> isNaN (of_decimal sign c p) = false.
Proof.
  intros Hc. unfold of_decimal. destruct (0 <=? p) eqn:Ep.
  - apply Z.leb_le in Ep. apply of_ratio_not_nan; [|lia].
    apply Z.mul_nonneg_nonneg; [exact Hc|]. apply Z.pow_nonneg. lia.
  - apply Z.leb_gt in Ep. apply of_ratio_not_nan; [exact Hc|].
    apply Z.pow_pos_nonneg; lia.
Qed.

Lemma span_digits_all_digits (s : string) :
  all_digits (fst (span_digits s)) = true.
Proof.
  induction s as [|c s IH]; [reflexivity|]. simpl.
  destruct (is_digit c) eqn:E; [|reflexivity].
  destruct (span_digits s) as [ds r]. simpl in *. now rewrite E.
Qed.

Lemma all_digits_append (a b : string) :
  all_digits a = true -> all_digits b = true -> all_digits (a ++ b) = true.
Proof.
  intros Ha Hb. induction a as [|c a IH]; [exact Hb|]. simpl in *.
  apply andb_true_iff in Ha as [Hc Ha]. now rewrite Hc, IH.
Qed.

Lemma digits_value_nonneg (ds : string) (acc : Z) :
  all_digits ds = true -> 0 <= acc -> 0 <= digits_value acc ds.
Proof.
  revert acc. induction ds as [|c ds IH]; intros acc Hd Ha; [exact Ha|].
  cbn [all_digits digits_value] in *.
  apply andb_true_iff in Hd as [Hc Hd]. apply IH; [exact Hd|].
  unfold is_digit in Hc. apply andb_true_iff in Hc as [H1 _].
  apply Z.leb_le in H1. lia.
Qed.

Lemma parse_unsigned_digit (sign : bool) (c : ascii) (t : string) :
  is_digit c = true -> isNaN (parse_unsigned sign (String c t)) = false.
Proof.
  intros Hc. unfold parse_unsigned.
  change (String.prefix "Infinity" (String c t))
    with (if ascii_dec "I" c then String.prefix "nfinity" t else false).
  destruct (ascii_dec "I" c) as [<-|_]; [discriminate Hc|].
  pose proof (span_digits_all_digits (String c t)) as Hip.
  destruct (span_digits (String c t)) as [ip r] eqn:Es.
  assert (Hne : ip <> EmptyString).
  { simpl in Es. rewrite Hc in Es. destruct (span_digits t).
    injection Es as <- _. discriminate. }
  simpl in Hip.
  assert (Hfp : forall fp r',
             all_digits fp = true ->
             isNaN match ip, fp with
                   | EmptyString, EmptyString => NaN
                   | _, _ => of_decimal sign (digits_value 0 (ip ++ fp))
                                        (exponent_part r' - Zlength fp)
                   end = false).
  { intros fp r' Hfp. destruct ip; [congruence|].
    apply of_decimal_not_nan, digits_value_nonneg; [|lia].
    now apply all_digits_append. }
  destruct r as [|x r0].
  - apply (Hfp EmptyString EmptyString). reflexivity.
  - destruct (ascii_dec x ".") as [->|Hx].
    + pose proof (span_digits_all_digits r0) as H0.
      cbv beta iota.
      destruct (span_digits r0) as [fp r']. now apply (Hfp fp r').
    + assert (E : match String x r0 with
                  | String "." t0 => span_digits t0
                  | _ => (EmptyString, String x r0)
                  end = (EmptyString, String x r0)).
      { destruct x as [[] [] [] [] [] [] [] []]; try reflexivity.
        now contradiction Hx. }
      rewrite E. apply (Hfp EmptyString (String x r0)). reflexivity.
Qed.

(** [parseFloat] yields a Number for every string that starts with a
    decimal digit, whatever follows. *)
Lemma parseFloat_digit_first (s : string) :
  starts_with_digit s = true -> isNaN (parseFloat s) = false.
Proof.
  destruct s as [|c t]; [discriminate|]. cbn [starts_with_digit]. intros Hc.
  rewrite <- (parse_unsigned_digit false c t Hc).
  f_equal. unfold parseFloat.
  destruct c as [[] [] [] [] [] [] [] []]; try discriminate Hc; reflexivity.
Qed.

End Parsing.

(** ** Whole calculations *)

Section Calculations.

Import JSNumber JSString Calculator Post.

(** [calculate] on a pending operation whose operands parse. *)
Lemma calculate_post_operation (s : CalculatorState) (op : Operation) :
  operator s = Some (Operation_string op) ->
  shouldResetDisplay s = false ->
  isNaN (parseFloat_nullable (previousInput s)) = false ->
  isNaN (parseFloat (currentInput s)) = false ->
  calculate_post s
  = if divides_by_zero op (parseFloat (currentInput s))
    then with_currentInput "Error" s
    else committed (apply_operation op (parseFloat_nullable (previousInput s))
                                    (parseFloat (currentInput s))).
Proof.
  intros Ho Hr Hp Hc. unfold calculate_post. rewrite Ho, Hr, Hp, Hc.
  destruct op; cbv [Operation_string case_eq_string is_null orb
                    apply_operation divides_by_zero];
    repeat match goal with
           | |- context [String.eqb ?a ?b] =>
               let v := eval vm_compute in (String.eqb a b) in
               change (String.eqb a b) with v
           end; cbv iota; reflexivity.
Qed.

Lemma is_operand_parts (text : string) :
  is_operand text = true ->
  starts_with_digit text = true /\ no_leading_zero text = true /\
  (points text <= 1)%nat.
Proof.
  unfold is_operand. intros H.
  apply andb_true_iff in H as [H H3]. apply andb_true_iff in H as [H1 H2].
  apply Nat.leb_le in H3. auto.
Qed.

Lemma typing_operand (text : string) (s : CalculatorState) :
  is_operand text = true ->
  shouldResetDisplay s = true \/
  (shouldResetDisplay s = false /\ currentInput s = "0") ->
  run_all (typing text) s
  = Some (mkState text (operator s) (previousInput s) false).
Proof.
  intros H Hs. apply is_operand_parts in H as (H1 & H2 & H3).
  now apply typing_fresh.
Qed.

(** X10: a whole calculation: typing an operand [a], an operator, an
    operand [b] and calculate on a fresh engine leaves the rounded result
    of the operation on the two parsed Numbers, with nothing pending; the
    only failure is the division by zero, which leaves "Error" with "/"
    and [a] still pending. *)
Theorem typed_calculation (a b : string) (op : Operation) :
  is_operand a = true ->
  is_operand b = true ->
  run_all (typing a ++ AppendOperator op :: typing b ++ [Calculate])
          initial_state
  = Some (if divides_by_zero op (parseFloat b)
          then mkState "Error" (Some "/") (Some a) false
          else committed (apply_operation op (parseFloat a) (parseFloat b))).
Proof.
  intros Ha Hb.
  rewrite run_all_app, (typing_operand a initial_state Ha)
    by (right; split; reflexivity).
  rewrite run_all_cons.
  change (post (AppendOperator op) (mkState a (operator initial_state)
                                            (previousInput initial_state) false))
    with (mkState a (Some (Operation_string op)) (Some a) true).
  rewrite run_all_app, (typing_operand b _ Hb) by (left; reflexivity).
  rewrite run_all_cons. cbn [run_all post operator previousInput]. f_equal.
  apply is_operand_parts in Ha as (Ha & _). apply is_operand_parts in Hb as (Hb & _).
  rewrite (calculate_post_operation _ op);
    cbn [currentInput operator previousInput shouldResetDisplay parseFloat_nullable];
    try reflexivity; try (now apply parseFloat_digit_first).
  destruct op; reflexivity.
Qed.

Lemma typed_calculation_witness :
  run_all (typing "12.5" ++ AppendOperator Times :: typing "4" ++ [Calculate])
          initial_state
  = Some (mkState "50" None None true).
Proof.
  rewrite (typed_calculation "12.5" "4" Times); [|reflexivity|reflexivity].
  vm_compute. reflexivity.
Defined.

Lemma starts_with_digit_digits_of (n : Z) :
  starts_with_digit (digits_of n) = true.
Proof.
  unfold digits_of, NilZero.string_of_uint.
  destruct (N.to_uint (Z.to_N n)); reflexivity.
Qed.

Lemma starts_with_digit_append (a b : string) :
  starts_with_digit a = true -> starts_with_digit (a ++ b) = true.
Proof. destruct a; [discriminate | auto]. Qed.

Lemma starts_with_digit_substring (n : nat) (s : string) :
  starts_with_digit s = true ->
  starts_with_digit (substring 0 (S n) s) = true.
Proof. destruct s; [discriminate | auto]. Qed.

(** A positive finite Number is written with a digit first. *)
Lemma starts_with_digit_positive_toString (m : positive) (e : Z) :
  starts_with_digit (positive_toString m e) = true.
Proof.
  unfold positive_toString.
  destruct (shortest m e) as [[s k] n].
  pose proof (starts_with_digit_digits_of s) as Hs.
  destruct ((k <=? n) && (n <=? 21)); [now apply starts_with_digit_append|].
  destruct ((0 <? n) && (n <=? 21)) eqn:E.
  - apply andb_true_iff in E as [E _]. apply Z.ltb_lt in E.
    destruct (Z.to_nat n) as [|n'] eqn:En; [lia|].
    now apply starts_with_digit_append, starts_with_digit_substring.
  - destruct ((-6 <? n) && (n <=? 0)); [reflexivity|].
    destruct (k =? 1); [now apply starts_with_digit_append|].
    now apply starts_with_digit_append, (starts_with_digit_substring 0).
Qed.

Lemma toString_not_Error (x : number) : toString x <> "Error".
Proof.
  destruct x as [s|s| |s m e]; simpl; try discriminate.
  - destruct s; discriminate.
  - pose proof (starts_with_digit_positive_toString m e) as H.
    destruct s; [discriminate|].
    intros E. rewrite E in H. discriminate H.
Qed.

(** X11: the sentinel is never a result: when calculate proceeds and
    leaves currentInput "Error", the operator and previousInput are still
    pending and shouldResetDisplay is still false; a committed result
    never reads "Error". *)
Theorem Error_means_failure (s : CalculatorState) :
  operator s <> None ->
  shouldResetDisplay s = false ->
  exists s',
    run calculate s = Returned s' /\
    (currentInput s' = "Error" ->
     operator s' = operator s /\ previousInput s' = previousInput s /\
     shouldResetDisplay s' = false).
Proof.
  intros Ho Hr. exists (calculate_post s). split; [apply calculate_run|].
  unfold calculate_post, committed, with_currentInput.
  repeat match goal with
         | |- context [if ?b then _ else _] => destruct b
         end; cbn [currentInput operator previousInput shouldResetDisplay];
    auto; intros E; now apply toString_not_Error in E.
Qed.

Lemma Error_means_failure_witness :
  exists s',
    run calculate (mkState "0" (Some "/") (Some "8") false) = Returned s' /\
    (currentInput s' = "Error" ->
     operator s' = Some "/" /\ previousInput s' = Some "8" /\
     shouldResetDisplay s' = false).
Proof.
  apply (Error_means_failure (mkState "0" (Some "/") (Some "8") false));
    [discriminate | reflexivity].
Defined.

(** What [toString] writes parses back to a Number, unless it is "NaN". *)
Lemma toString_parses (x : number) :
  isNaN (parseFloat (toString x)) = isNaN x.
Proof.
  destruct x as [s|s| |s m e]; try reflexivity.
  - destruct s; reflexivity.
  - pose proof (starts_with_digit_positive_toString m e) as H.
    destruct s; cbn [toString isNaN].
    + change ("-" ++ positive_toString m e)%string
        with (String "-" (positive_toString m e)).
      change (parseFloat (String "-" (positive_toString m e)))
        with (parse_unsigned true (positive_toString m e)).
      destruct (positive_toString m e) as [|c t]; [discriminate H|].
      now apply parse_unsigned_digit.
    + now apply parseFloat_digit_first.
Qed.

(** X12: a result is a left operand: after calculate committed a result
    that is not NaN, an operator, a typed operand and calculate compute on
    the Number the result text parses to; again only the division by zero
    fails. *)
Theorem calculation_continues (r : number) (b : string) (op : Operation) :
  isNaN (rounded_result r) = false ->
  is_operand b = true ->
  run_all (AppendOperator op :: typing b ++ [Calculate]) (committed r)
  = Some (if divides_by_zero op (parseFloat b)
          then mkState "Error" (Some "/") (Some (toString (rounded_result r))) false
          else committed (apply_operation op
                            (parseFloat (toString (rounded_result r)))
                            (parseFloat b))).
Proof.
  intros Hr Hb. rewrite run_all_cons.
  change (post (AppendOperator op) (committed r))
    with (mkState (toString (rounded_result r)) (Some (Operation_string op))
                  (Some (toString (rounded_result r))) true).
  rewrite run_all_app, (typing_operand b _ Hb) by (left; reflexivity).
  rewrite run_all_cons. cbn [run_all post operator previousInput]. f_equal.
  apply is_operand_parts in Hb as (Hb & _).
  rewrite (calculate_post_operation _ op);
    cbn [currentInput operator previousInput shouldResetDisplay parseFloat_nullable];
    try reflexivity; try (now apply parseFloat_digit_first).
  - destruct op; reflexivity.
  - unfold parseFloat_nullable. now rewrite toString_parses.
Qed.

Lemma calculation_continues_witness :
  run_all (AppendOperator Minus :: typing "2" ++ [Calculate])
          (committed (parseFloat "50"))
  = Some (mkState "48" None None true).
Proof.
  rewrite (calculation_continues (parseFloat "50") "2" Minus);
    [|vm_compute; reflexivity|reflexivity].
  vm_compute. reflexivity.
Defined.

End Calculations.

(** ** Keyboard and buttons *)

Section EntryPoints.

Import JSNumber JSString Calculator Post Entry.

Lemma run_call (m : M unit) (s : CalculatorState) : run (call m) s = run m s.
Proof. unfold run, call. destruct (m s) as [[[]| |e] s1]; reflexivity. Qed.

Lemma isDigit_cons (c : ascii) (t : string) :
  isDigit (String c t)
  = (48 <=? code c) &&
    ((code c <? 57) || ((code c =? 57) && (t =? EmptyString)%string)).
Proof.
  unfold isDigit, string_ge, string_le. cbn [string_lt].
  change (code "0") with 48. change (code "9") with 57.
  destruct (Z.ltb_spec (code c) 48), (Z.eqb_spec (code c) 48),
    (Z.leb_spec 48 (code c)), (Z.ltb_spec 57 (code c)),
    (Z.eqb_spec 57 (code c)), (Z.ltb_spec (code c) 57),
    (Z.eqb_spec (code c) 57); try lia; destruct t; reflexivity.
Qed.

(** X13: what isDigit accepts: it compares strings, so besides the ten
    one-character digits it accepts every longer key that starts with
    "0" to "8", and no key that starts with "9" but "9" itself; it
    rejects the empty key.  On a one-character key it is exactly the test
    for a decimal digit. *)
Theorem isDigit_accepts (key : string) :
  isDigit key = true <->
  exists c t, key = String c t /\
              (48 <= code c <= 56 \/ (code c = 57 /\ t = EmptyString)).
Proof.
  destruct key as [|c t].
  - split; [discriminate | intros (c & t & H & _); discriminate].
  - rewrite isDigit_cons. split.
    + intros H. exists c, t. split; [reflexivity|].
      apply andb_true_iff in H as [H1 H2]. apply Z.leb_le in H1.
      apply orb_true_iff in H2 as [H2|H2].
      * apply Z.ltb_lt in H2. left. lia.
      * apply andb_true_iff in H2 as [H2 H3]. apply Z.eqb_eq in H2.
        apply String.eqb_eq in H3. now right.
    + intros (c' & t' & [= <- <-] & H).
      destruct H as [H | [H ->]].
      * replace (48 <=? code c) with true by (symmetry; apply Z.leb_le; lia).
        replace (code c <? 57) with true by (symmetry; apply Z.ltb_lt; lia).
        reflexivity.
      * rewrite H. reflexivity.
Qed.

Lemma isDigit_single (c : ascii) : isDigit (String c EmptyString) = is_digit c.
Proof.
  rewrite isDigit_cons. unfold is_digit. cbn [String.eqb].
  rewrite andb_true_r. f_equal.
  destruct (Z.ltb_spec (code c) 57), (Z.eqb_spec (code c) 57),
    (Z.leb_spec (code c) 57); try lia; reflexivity.
Qed.

(** The state a key press leaves. *)
Lemma handleKeyPress_run (key : string) (s : CalculatorState) :
  run (handleKeyPress key) s
  = Returned
      (if isDigit key || (key =? ".")%string then post (AppendNumber key) s
       else if isOperation key then post (AppendOperator (as_Operation key)) s
       else if (key =? "Enter")%string || (key =? "=")%string
            then post Calculate s
       else if (key =? "Escape")%string || (key =? "c")%string
               || (key =? "C")%string
            then post Clear s
       else if (key =? "Backspace")%string then post DeleteLast s
       else s).
Proof.
  unfold handleKeyPress.
  repeat match goal with
         | |- context [if ?b then _ else _] => destruct b
         end; rewrite ?run_call;
    first [ apply (method_run (AppendNumber key))
          | apply (method_run (AppendOperator (as_Operation key)))
          | apply (method_run Calculate)
          | apply (method_run Clear)
          | apply (method_run DeleteLast)
          | reflexivity ].
Qed.

Lemma number_key_nonempty (key : string) :
  isDigit key || (key =? ".")%string = true -> key <> EmptyString.
Proof. intros H ->. discriminate H. Qed.

(** X14: the invariants hold under the keyboard, whatever the keys are:
    after any sequence of key presses on a fresh engine, names of keys
    that are not mapped and keys of several characters included, every
    press has returned, currentInput is not empty and operator is
    non-null exactly when previousInput is. *)
Theorem keyboard_keeps_invariants (keys : list string) :
  exists s,
    press_all keys initial_state = Some s /\
    currentInput s <> EmptyString /\
    (operator s <> None <-> previousInput s <> None).
Proof.
  assert (H : forall s0,
             currentInput s0 <> EmptyString ->
             (operator s0 <> None <-> previousInput s0 <> None) ->
             exists s,
               press_all keys s0 = Some s /\
               currentInput s <> EmptyString /\
               (operator s <> None <-> previousInput s <> None)).
  { induction keys as [|key keys IH]; intros s0 Hn Hp.
    - exists s0. auto.
    - cbn [press_all]. rewrite handleKeyPress_run.
      destruct (isDigit key || (key =? ".")%string) eqn:E1.
      { cbn [post]. apply IH.
        - apply appendNumber_post_nonempty; [|exact Hn].
          now apply number_key_nonempty.
        - exact Hp. }
      destruct (isOperation key).
      { apply IH; [now apply (post_nonempty (AppendOperator _))|].
        now apply (post_pending (AppendOperator _)). }
      destruct ((key =? "Enter")%string || (key =? "=")%string).
      { apply IH; [now apply (post_nonempty Calculate)|].
        now apply (post_pending Calculate). }
      destruct ((key =? "Escape")%string || (key =? "c")%string
                || (key =? "C")%string).
      { apply IH; [now apply (post_nonempty Clear)|].
        now apply (post_pending Clear). }
      destruct (key =? "Backspace")%string.
      { apply IH; [now apply (post_nonempty DeleteLast)|].
        now apply (post_pending DeleteLast). }
      now apply IH. }
  apply H; [discriminate | simpl; tauto].
Qed.

Lemma isOperation_cases (key : string) :
  isOperation key = true ->
  key = "+" \/ key = "-" \/ key = "*" \/ key = "/".
Proof.
  unfold isOperation, array_includes. cbn [existsb].
  intros H. repeat (apply orb_true_iff in H as [H|H]);
    try (apply String.eqb_eq in H; subst; auto); discriminate.
Qed.

(** X15: the cast of handleKeyPress is sound: a key isOperation accepts
    is stored as it is in operator, with currentInput copied into
    previousInput and shouldResetDisplay set. *)
Theorem operator_key_is_stored (key : string) (s : CalculatorState) :
  isOperation key = true ->
  exists s',
    run (handleKeyPress key) s = Returned s' /\
    operator s' = Some key /\
    previousInput s' = Some (currentInput s') /\
    shouldResetDisplay s' = true.
Proof.
  intros H. rewrite handleKeyPress_run.
  assert (E : isDigit key || (key =? ".")%string = false)
    by (apply isOperation_cases in H as [-> | [-> | [-> | ->]]]; reflexivity).
  rewrite E, H. eexists. split; [reflexivity|].
  unfold post, appendOperator_post.
  cbn [operator previousInput shouldResetDisplay currentInput].
  split; [|split; reflexivity].
  apply isOperation_cases in H as [-> | [-> | [-> | ->]]]; reflexivity.
Qed.

Lemma operator_key_is_stored_witness :
  exists s',
    run (handleKeyPress "*") (mkState "7" None None false) = Returned s' /\
    operator s' = Some "*" /\
    previousInput s' = Some (currentInput s') /\
    shouldResetDisplay s' = true.
Proof.
  apply (operator_key_is_stored "*" (mkState "7" None None false)).
  reflexivity.
Defined.

(** X16: a key and the button of the same symbol do the same: for a
    digit, the decimal point or one of the four operators,
    handleKeyPress and the global appendToDisplay on a constructed
    calculator leave the same state. *)
Theorem key_and_button_agree (value : string) (s : CalculatorState) :
  is_token value || isOperation value = true ->
  appendToDisplay value (Some s) = Some (run (handleKeyPress value) s).
Proof.
  intros H. unfold appendToDisplay, optional_call, handleKeyPress.
  fold (isOperation value).
  apply orb_true_iff in H as [H|H].
  - destruct value as [|c [|c' t]]; try discriminate H.
    cbn [is_token] in H. rewrite isDigit_single, single_is_point, H.
    assert (E : isOperation (String c EmptyString) = false).
    { destruct (isOperation (String c EmptyString)) eqn:E; [|reflexivity].
      apply isOperation_cases in E as [E | [E | [E | E]]];
        injection E as ->; discriminate H. }
    rewrite E, run_call. reflexivity.
  - rewrite H.
    assert (E : isDigit value || (value =? ".")%string = false)
      by (apply isOperation_cases in H as [-> | [-> | [-> | ->]]]; reflexivity).
    rewrite E, run_call. reflexivity.
Qed.

Lemma key_and_button_agree_witness :
  appendToDisplay "7" (Some initial_state)
  = Some (run (handleKeyPress "7") initial_state).
Proof.
  apply (key_and_button_agree "7" initial_state). reflexivity.
Defined.

End EntryPoints.

(** ** More compositions *)

Section MoreComposition.

Import JSNumber JSString Calculator Post.

(** X17: calculate before an operator is redundant: appendOperator
    resolves what is pending itself, so calculate followed by
    appendOperator leaves the state appendOperator alone leaves, from
    every state. *)
Theorem calculate_before_operator (op : Operation) (s : CalculatorState) :
  run_all [Calculate; AppendOperator op] s = run_all [AppendOperator op] s.
Proof.
  rewrite !run_all_cons. cbn [run_all post]. f_equal.
  unfold appendOperator_post.
  destruct (negb (is_null (operator s)) && negb (shouldResetDisplay s)) eqn:E.
  - destruct (negb (is_null (operator (calculate_post s)))
              && negb (shouldResetDisplay (calculate_post s)));
      [now rewrite calculate_post_idempotent | reflexivity].
  - assert (E0 : calculate_post s = s).
    { unfold calculate_post.
      replace (is_null (operator s) || shouldResetDisplay s) with true;
        [reflexivity|].
      destruct (is_null (operator s)), (shouldResetDisplay s);
        try reflexivity; discriminate E. }
    rewrite E0, E. reflexivity.
Qed.

(** X18: deleteLast does not clear shouldResetDisplay, so editing a
    committed result is lost on the next token: when shouldResetDisplay
    is true, deleteLast followed by appendNumber leaves the state
    appendNumber alone leaves. *)
Theorem edited_result_is_discarded (num : string) (s : CalculatorState) :
  shouldResetDisplay s = true ->
  run_all [DeleteLast; AppendNumber num] s = run_all [AppendNumber num] s.
Proof.
  intros Hr. rewrite !run_all_cons. cbn [run_all post]. f_equal.
  unfold appendNumber_post, deleteLast_post, with_currentInput.
  cbn [shouldResetDisplay operator previousInput currentInput].
  rewrite Hr. reflexivity.
Qed.

Lemma edited_result_is_discarded_witness :
  run_all [DeleteLast; AppendNumber "7"] (mkState "48" None None true)
  = run_all [AppendNumber "7"] (mkState "48" None None true).
Proof.
  apply (edited_result_is_discarded "7" (mkState "48" None None true)).
  reflexivity.
Defined.

End MoreComposition.
